(** * consolidate_data.py: a shallow embedding and its properties

    The script [app_data/full_sequences/consolidate_data.py] reads, for each
    of six dataset prefixes, a heavy-chain FASTA file, a light-chain FASTA
    file and a reactivity file, zips them into dictionaries and dumps the
    accumulated list as JSON.

    Text is modelled over the 7-bit ASCII repertoire with [string]: a file's
    content is the text that [f.read()] returns after universal-newline
    translation.  Codes above 127 stand for no character of the modelled
    files; they are neither whitespace nor letters here.  Paths follow the
    POSIX [os.path.join].  A path either names a readable text file or
    does not exist: [open] raises nothing but [FileNotFoundError]. *)

From Stdlib Require Import String Ascii List ZArith NArith Bool Arith Lia.
From Stdlib Require Import DecimalString.
Import ListNotations.
Local Open Scope string_scope.
Local Open Scope list_scope.

(** ** Python string primitives used by the script *)

Module PyStr.

Definition LF : ascii := "010"%char.
Definition nl : string := String LF "".

(** [str.isspace] on ASCII: TAB, LF, VT, FF, CR, FS, GS, RS, US, SPACE. *)
Definition isspace (c : ascii) : bool :=
  let n := nat_of_ascii c in
  (((9 <=? n) && (n <=? 13)) || ((28 <=? n) && (n <=? 31)) || (n =? 32))%nat.

Definition upper_char (c : ascii) : ascii :=
  let n := nat_of_ascii c in
  if ((97 <=? n) && (n <=? 122))%nat then ascii_of_nat (n - 32) else c.

Definition lower_char (c : ascii) : ascii :=
  let n := nat_of_ascii c in
  if ((65 <=? n) && (n <=? 90))%nat then ascii_of_nat (n + 32) else c.

Fixpoint map_str (f : ascii -> ascii) (s : string) : string :=
  match s with
  | "" => ""
  | String c r => String (f c) (map_str f r)
  end.

(** [s.upper()] and [s.lower()] *)
Definition upper : string -> string := map_str upper_char.
Definition lower : string -> string := map_str lower_char.

(** Truthiness of a string: [if s:] *)
Definition truthy (s : string) : bool :=
  match s with "" => false | _ => true end.

(** [s.lstrip()], [s.rstrip()], [s.strip()] *)
Fixpoint lstrip (s : string) : string :=
  match s with
  | "" => ""
  | String c r => if isspace c then lstrip r else s
  end.

Fixpoint rstrip (s : string) : string :=
  match s with
  | "" => ""
  | String c r =>
      let r' := rstrip r in
      if isspace c && negb (truthy r') then "" else String c r'
  end.

Definition strip (s : string) : string := lstrip (rstrip s).

(** [s.split(sep)] for a one-character separator: never the empty list. *)
Fixpoint split_on (sep : ascii) (s : string) : list string :=
  match s with
  | "" => [""]
  | String c r =>
      if Ascii.eqb c sep then "" :: split_on sep r
      else match split_on sep r with
           | h :: t => String c h :: t
           | [] => [String c ""]
           end
  end.

(** [s.index(ch)]: [None] stands for the [ValueError] of a missing [ch]. *)
Fixpoint str_index (ch : ascii) (s : string) : option nat :=
  match s with
  | "" => None
  | String c r =>
      if Ascii.eqb c ch then Some 0
      else match str_index ch r with
           | Some i => Some (S i)
           | None => None
           end
  end.

(** The slice [s[n:]] *)
Fixpoint slice_from (n : nat) (s : string) : string :=
  match n, s with
  | O, _ => s
  | S _, "" => ""
  | S m, String _ r => slice_from m r
  end.

(** [s.split()] with no argument: the maximal runs of non-whitespace. *)
Fixpoint split_ws (s : string) : list string :=
  match s with
  | "" => []
  | String c r =>
      if isspace c then split_ws r
      else match r with
           | "" => [String c ""]
           | String c' _ =>
               if isspace c' then String c "" :: split_ws r
               else match split_ws r with
                    | h :: t => String c h :: t
                    | [] => [String c ""]
                    end
           end
  end.

(** ["".join(l)] *)
Definition join_empty (l : list string) : string := String.concat "" l.

(** [sub in s] *)
Fixpoint contains (sub s : string) : bool :=
  String.prefix sub s ||
  match s with
  | "" => false
  | String _ r => contains sub r
  end.

(** [f.readlines()] and [for line in f]: lines keep their terminating LF. *)
Fixpoint readlines (s : string) : list string :=
  match s with
  | "" => []
  | String c r =>
      if Ascii.eqb c LF then String c "" :: readlines r
      else match readlines r with
           | h :: t => String c h :: t
           | [] => [String c ""]
           end
  end.

(** [int(s)] in base ten on an already stripped string: an optional sign
    and decimal digits, single underscores allowed between digits.  [None]
    stands for [ValueError].  The interpreter's optional cap on the number
    of digits ([sys.set_int_max_str_digits]) is left out. *)
Definition is_digit (c : ascii) : bool :=
  let n := nat_of_ascii c in ((48 <=? n) && (n <=? 57))%nat.

Definition digit_val (c : ascii) : N := N.of_nat (nat_of_ascii c - 48).

Fixpoint digits_from (acc : N) (prev_digit : bool) (s : string) : option N :=
  match s with
  | "" => if prev_digit then Some acc else None
  | String c r =>
      if is_digit c then digits_from (10 * acc + digit_val c)%N true r
      else if Ascii.eqb c "_"%char
           then (if prev_digit then digits_from acc false r else None)
           else None
  end.

Definition py_int (s : string) : option Z :=
  match s with
  | String "+"%char r => option_map Z.of_N (digits_from 0 false r)
  | String "-"%char r =>
      option_map (fun n => (- Z.of_N n)%Z) (digits_from 0 false r)
  | _ => option_map Z.of_N (digits_from 0 false s)
  end.

(** [str(n)] for an integer: what an f-string and [json] print. *)
Definition str_of_nat (n : nat) : string :=
  NilZero.string_of_uint (Nat.to_uint n).

Definition str_of_Z (z : Z) : string :=
  match z with
  | Z0 => "0"
  | Zpos p => NilZero.string_of_uint (Pos.to_uint p)
  | Zneg p => String "-" (NilZero.string_of_uint (Pos.to_uint p))
  end.

End PyStr.

Import PyStr.

(** ** The [json] encoder, as far as [json.dump(all_data, f, indent=2)]
    reaches: a list of flat dictionaries of strings and integers. *)

Module Json.

Inductive value : Type :=
| VStr (s : string)
| VInt (z : Z).

(** A dict literal, in insertion order. *)
Definition dict : Type := list (string * value).

Definition keys (d : dict) : list string := map fst d.

Fixpoint get (k : string) (d : dict) : option value :=
  match d with
  | [] => None
  | (k', v) :: r => if String.eqb k k' then Some v else get k r
  end.

Definition hex_digit (n : nat) : ascii :=
  if (n <? 10)%nat then ascii_of_nat (48 + n) else ascii_of_nat (87 + n).

Definition DQUOTE : ascii := "034"%char.
Definition BSLASH : ascii := "092"%char.

(** A two-character escape: a backslash and [c]. *)
Definition esc (c : ascii) : string := String BSLASH (String c "").

(** [ESCAPE_ASCII] of [json.encoder] *)
Definition escape_char (c : ascii) : string :=
  let n := nat_of_ascii c in
  if Ascii.eqb c DQUOTE then esc DQUOTE
  else if Ascii.eqb c BSLASH then esc BSLASH
  else if (n =? 10)%nat then esc "n"
  else if (n =? 13)%nat then esc "r"
  else if (n =? 9)%nat then esc "t"
  else if (n =? 12)%nat then esc "f"
  else if (n =? 8)%nat then esc "b"
  else if ((32 <=? n) && (n <=? 126))%nat then String c ""
  else esc "u" ++ "00"
       ++ String (hex_digit (n / 16)) (String (hex_digit (n mod 16)) "").

Fixpoint escape (s : string) : string :=
  match s with
  | "" => ""
  | String c r => escape_char c ++ escape r
  end.

Definition encode_str (s : string) : string :=
  String DQUOTE (escape s ++ String DQUOTE "").

Definition dump_value (v : value) : string :=
  match v with
  | VStr s => encode_str s
  | VInt z => str_of_Z z
  end.

Fixpoint spaces (n : nat) : string :=
  match n with
  | O => ""
  | S m => String " " (spaces m)
  end.

Definition newline_indent (indent level : nat) : string :=
  nl ++ spaces (indent * level).

Definition dump_item (kv : string * value) : string :=
  encode_str (fst kv) ++ ": " ++ dump_value (snd kv).

Definition dump_dict (indent level : nat) (d : dict) : string :=
  match d with
  | [] => "{}"
  | _ =>
      "{" ++ newline_indent indent (S level)
      ++ String.concat ("," ++ newline_indent indent (S level))
           (map dump_item d)
      ++ newline_indent indent level ++ "}"
  end.

Definition dumps (indent : nat) (l : list dict) : string :=
  match l with
  | [] => "[]"
  | _ =>
      "[" ++ newline_indent indent 1
      ++ String.concat ("," ++ newline_indent indent 1)
           (map (dump_dict indent 1) l)
      ++ newline_indent indent 0 ++ "]"
  end.

End Json.

Import Json.

(** ** Effects: printing, file access, exceptions and the global list *)

Module Py.

Inductive exn : Type :=
| FileNotFoundError (path : string)
| ValueError (literal : string).

(** What the run has changed so far: the module-level list [all_data], the
    lines printed, and the files written (name and content). *)
Record world : Type := mkWorld {
  all_data : list dict;
  stdout : list string;
  written : list (string * string)
}.

Definition start : world := mkWorld [] [] [].

Inductive outcome (A : Type) : Type :=
| Returns (a : A) (w : world)
| Raises (e : exn) (w : world).
Arguments Returns {A} a w.
Arguments Raises {A} e w.

Definition M (A : Type) : Type := world -> outcome A.

Definition ret {A} (a : A) : M A := fun w => Returns a w.

Definition bind {A B} (m : M A) (k : A -> M B) : M B :=
  fun w => match m w with
           | Returns a w' => k a w'
           | Raises e w' => Raises e w'
           end.

Definition raise {A} (e : exn) : M A := fun w => Raises e w.

(** [try: body except <handled>: handler]; [handler e = None] when the
    clause does not match [e]. *)
Definition try_except {A} (body : M A) (handler : exn -> option (M A)) : M A :=
  fun w => match body w with
           | Returns a w' => Returns a w'
           | Raises e w' =>
               match handler e with
               | Some h => h w'
               | None => Raises e w'
               end
           end.

Definition print (line : string) : M unit :=
  fun w => Returns tt (mkWorld (all_data w) (stdout w ++ [line]) (written w)).

Definition all_data_append (d : dict) : M unit :=
  fun w => Returns tt (mkWorld (all_data w ++ [d]) (stdout w) (written w)).

Definition get_all_data : M (list dict) := fun w => Returns (all_data w) w.

(** The assignment [all_data = []] *)
Definition all_data_init : M unit :=
  fun w => Returns tt (mkWorld [] (stdout w) (written w)).

Definition write_file (name content : string) : M unit :=
  fun w =>
    Returns tt (mkWorld (all_data w) (stdout w) (written w ++ [(name, content)])).

Fixpoint for_each {A} (xs : list A) (body : A -> M unit) : M unit :=
  match xs with
  | [] => ret tt
  | x :: r => bind (body x) (fun _ => for_each r body)
  end.

(** A loop that updates a local variable. *)
Fixpoint for_fold {A B} (xs : list A) (body : B -> A -> M B) (b : B) : M B :=
  match xs with
  | [] => ret b
  | x :: r => bind (body b x) (fun b' => for_fold r body b')
  end.

End Py.

Import Py.

Declare Scope py_scope.
Delimit Scope py_scope with py.
Notation "x <- m ;; k" := (bind m (fun x => k))
  (at level 61, m at next level, right associativity) : py_scope.
Notation "m ;; k" := (bind m (fun _ => k))
  (at level 61, right associativity) : py_scope.

(** ** The script *)

Section Script.

(** The input files: the text of each path that exists. *)
Variable fs : string -> option string.

Local Open Scope py_scope.

(** [open(file_path, 'r')] followed by [f.read()] *)
Definition open_read (file_path : string) : M string :=
  match fs file_path with
  | Some text => ret text
  | None => raise (FileNotFoundError file_path)
  end.

(** The body of [for record_block in records], on the local [sequences]. *)
Definition record_step (make_uppercase : bool) (sequences : list string)
    (record_block : string) : list string :=
  if negb (truthy (strip record_block)) then sequences
  else
    let sequence_part :=
      match str_index LF record_block with
      | Some first_newline_pos => slice_from (first_newline_pos + 1) record_block
      | None => ""
      end in
    let cleaned_sequence := join_empty (split_ws sequence_part) in
    let cleaned_sequence :=
      if make_uppercase then upper cleaned_sequence else cleaned_sequence in
    if truthy cleaned_sequence then sequences ++ [cleaned_sequence]
    else sequences.

(** The [with] block of [parse_fasta_universal] once the text is read. *)
Definition parse_fasta_text (make_uppercase : bool) (text : string)
  : list string :=
  let records := split_on ">" (strip text) in
  fold_left (record_step make_uppercase) records [].

Definition parse_fasta_universal (file_path : string) (make_uppercase : bool)
  : M (option (list string)) :=
  try_except
    (text <- open_read file_path ;;
     ret (Some (parse_fasta_text make_uppercase text)))
    (fun e =>
       match e with
       | FileNotFoundError _ =>
           Some (print ("Warning: File not found at " ++ file_path
                        ++ ". Skipping.") ;;
                 ret None)
       | _ => None
       end).

(** [int(line.strip())] *)
Definition int_of (s : string) : M Z :=
  match py_int s with
  | Some z => ret z
  | None => raise (ValueError s)
  end.

Definition numeric_step (react_values : list Z) (line : string) : M (list Z) :=
  if truthy (strip line)
  then v <- int_of (strip line) ;; ret (react_values ++ [v])
  else ret react_values.

Definition process_react_numeric (file_path : string) : M (list Z) :=
  text <- open_read file_path ;;
  let lines := readlines text in
  let lines :=
    match lines with
    | first :: rest => if contains "reacts" (lower first) then rest else lines
    | [] => lines
    end in
  for_fold lines numeric_step [].

Definition binary_step (react_values : list Z) (line : string) : list Z :=
  let val := upper (strip line) in
  if String.eqb val "Y" then react_values ++ [4%Z]
  else if String.eqb val "N" then react_values ++ [0%Z]
  else react_values.

Definition process_react_binary (file_path : string) : M (list Z) :=
  text <- open_read file_path ;;
  ret (fold_left binary_step (readlines text) []).

(** *** Main execution *)

Definition data_directory : string := ".".
Definition prefixes : list string :=
  ["flu"; "gut_hiv"; "nat_cntrl"; "nat_hiv"; "plos_hiv"; "mouse"].
Definition output_filename : string := "consolidated_data_boughter_2020.json".

(** [os.path.join(a, b)] for a relative [b] and a non-empty [a] without a
    trailing separator. *)
Definition path_join (a b : string) : string := a ++ "/" ++ b.

Fixpoint mem (x : string) (l : list string) : bool :=
  match l with
  | [] => false
  | y :: r => String.eqb x y || mem x r
  end.

(** [zip(a, b, c)] *)
Fixpoint zip3 {A B C} (a : list A) (b : list B) (c : list C)
  : list (A * B * C) :=
  match a, b, c with
  | x :: a', y :: b', z :: c' => (x, y, z) :: zip3 a' b' c'
  | _, _, _ => []
  end.

Definition make_record (prefix : string) (t : string * string * Z) : dict :=
  let '(h_chain, l_chain, react_val) := t in
  [ ("type", VStr prefix);
    ("NumReact", VInt react_val);
    ("DNA_fastaH_raw", VStr h_chain);
    ("DNA_fastaL_raw", VStr l_chain) ].

Definition heavy_chain_path (prefix : string) : string :=
  let h_ext := if String.eqb prefix "mouse" then ".dat" else ".txt" in
  path_join data_directory (prefix ++ "_fastaH" ++ h_ext).

Definition light_chain_path (prefix : string) : string :=
  let l_ext := if String.eqb prefix "mouse" then ".dat" else ".txt" in
  path_join data_directory (prefix ++ "_fastaL" ++ l_ext).

Definition read_reactivity (prefix : string) : M (list Z) :=
  if mem prefix ["mouse"; "plos_hiv"]
  then process_react_binary (path_join data_directory (prefix ++ "_YN.txt"))
  else process_react_numeric
         (path_join data_directory (prefix ++ "_NumReact.txt")).

(** The body of [for prefix in prefixes]; a [continue] ends it. *)
Definition loop_body (prefix : string) : M unit :=
  print ("Processing " ++ prefix ++ " data...") ;;
  let should_uppercase := String.eqb prefix "mouse" in
  let heavy_chain_file := heavy_chain_path prefix in
  let light_chain_file := light_chain_path prefix in
  heavy_chains <- parse_fasta_universal heavy_chain_file should_uppercase ;;
  light_chains <- parse_fasta_universal light_chain_file should_uppercase ;;
  match heavy_chains, light_chains with
  | Some heavy_chains, Some light_chains =>
      reactivity <- read_reactivity prefix ;;
      if negb (length heavy_chains =? length light_chains)%nat
         || negb (length heavy_chains =? length reactivity)%nat
      then
        print ("Warning: Mismatch in record counts for prefix '" ++ prefix
               ++ "'. Skipping.") ;;
        print ("  Heavy chains: " ++ str_of_nat (length heavy_chains)
               ++ ", Light chains: " ++ str_of_nat (length light_chains)
               ++ ", Reactivity values: " ++ str_of_nat (length reactivity))
      else
        for_each (zip3 heavy_chains light_chains reactivity)
          (fun t => all_data_append (make_record prefix t))
  | _, _ => ret tt
  end.

Definition main : M unit :=
  all_data_init ;;
  for_each prefixes loop_body ;;
  data <- get_all_data ;;
  write_file output_filename (dumps 2 data) ;;
  print (nl ++ "Successfully consolidated all data into '" ++ output_filename
         ++ "'") ;;
  print ("Total records processed: " ++ str_of_nat (length data)).

End Script.

(** ** What the specification says, in its own words *)

Module Spec.

(** A record body holds no record delimiter. *)
Definition no_delim (s : string) : Prop := str_index ">" s = None.

(** A text made of delimiter-marked records: each is the delimiter followed
    by its body (header line, then sequence lines). *)
Fixpoint fasta_text (bodies : list string) : string :=
  match bodies with
  | [] => ""
  | b :: r => String ">" (b ++ fasta_text r)
  end.

(** Header line removed: what follows the first line break, nothing when
    there is none. *)
Fixpoint drop_header_line (body : string) : string :=
  match body with
  | "" => ""
  | String c r => if Ascii.eqb c LF then r else drop_header_line r
  end.

Fixpoint remove_whitespace (s : string) : string :=
  match s with
  | "" => ""
  | String c r =>
      if isspace c then remove_whitespace r else String c (remove_whitespace r)
  end.

Fixpoint has_whitespace (s : string) : bool :=
  match s with
  | "" => false
  | String c r => isspace c || has_whitespace r
  end.

(** The cleaned sequence of a record body. *)
Definition cleaned (make_uppercase : bool) (body : string) : string :=
  let s := remove_whitespace (drop_header_line body) in
  if make_uppercase then upper s else s.

(** One cleaned string per record, in order, empty ones omitted. *)
Definition cleaned_sequences (make_uppercase : bool) (bodies : list string)
  : list string :=
  filter truthy (map (cleaned make_uppercase) bodies).

(** The numeric reader: the first line is a header when its lowercased
    content contains "reacts". *)
Definition has_header (lines : list string) : bool :=
  match lines with
  | first :: _ => contains "reacts" (lower first)
  | [] => false
  end.

Definition data_lines (text : string) : list string :=
  let lines := readlines text in
  if has_header lines then tl lines else lines.

Definition blank (line : string) : bool := negb (truthy (strip line)).

(** Each line trimmed and parsed as an integer, in order; the first line
    that is no integer is the parse error. *)
Fixpoint parse_ints (lines : list string) : exn + list Z :=
  match lines with
  | [] => inr []
  | l :: r =>
      match py_int (strip l) with
      | None => inl (ValueError (strip l))
      | Some z =>
          match parse_ints r with
          | inl e => inl e
          | inr zs => inr (z :: zs)
          end
      end
  end.

Definition numeric_values (text : string) : exn + list Z :=
  parse_ints (filter (fun l => negb (blank l)) (data_lines text)).

(** The binary reader: a trimmed line that is Y or N in either case gives
    an entry, any other line gives none. *)
Definition yn_entry (line : string) : list Z :=
  let v := strip line in
  if String.eqb v "Y" || String.eqb v "y" then [4%Z]
  else if String.eqb v "N" || String.eqb v "n" then [0%Z]
  else [].

Definition binary_values (text : string) : list Z :=
  flat_map yn_entry (readlines text).

End Spec.

Import Spec.

(** ** What one dataset holds, read off the input files *)

Section Datasets.

Variable fs : string -> option string.

Definition heavy_chains_of (prefix : string) : option (list string) :=
  option_map (parse_fasta_text (String.eqb prefix "mouse"))
    (fs (heavy_chain_path prefix)).

Definition light_chains_of (prefix : string) : option (list string) :=
  option_map (parse_fasta_text (String.eqb prefix "mouse"))
    (fs (light_chain_path prefix)).

Definition is_binary (prefix : string) : bool :=
  mem prefix ["mouse"; "plos_hiv"].

Definition reactivity_path (prefix : string) : string :=
  if is_binary prefix
  then path_join data_directory (prefix ++ "_YN.txt")
  else path_join data_directory (prefix ++ "_NumReact.txt").

(** What the chosen reactivity reader gives: the values, or the exception
    it lets through. *)
Definition reactivity_of (prefix : string) : exn + list Z :=
  match fs (reactivity_path prefix) with
  | None => inl (FileNotFoundError (reactivity_path prefix))
  | Some text =>
      if is_binary prefix then inr (binary_values text)
      else numeric_values text
  end.

(** The three counts of a dataset whose files were all read. *)
Definition counts_of (prefix : string) : option (nat * nat * nat) :=
  match heavy_chains_of prefix, light_chains_of prefix, reactivity_of prefix with
  | Some hs, Some ls, inr rs => Some (length hs, length ls, length rs)
  | _, _, _ => None
  end.

Definition dataset_records (prefix : string) : list dict :=
  match heavy_chains_of prefix, light_chains_of prefix, reactivity_of prefix with
  | Some hs, Some ls, inr rs => map (make_record prefix) (zip3 hs ls rs)
  | _, _, _ => []
  end.

(** A dataset is skipped when a sequence file is missing or the counts
    disagree. *)
Definition is_skipped (prefix : string) : bool :=
  match heavy_chains_of prefix, light_chains_of prefix with
  | Some hs, Some ls =>
      match reactivity_of prefix with
      | inr rs =>
          negb (length hs =? length ls)%nat || negb (length hs =? length rs)%nat
      | inl _ => false
      end
  | _, _ => true
  end.

(** The lines the script prints. *)
Definition processing_line (prefix : string) : string :=
  "Processing " ++ prefix ++ " data...".

Definition missing_line (file_path : string) : string :=
  "Warning: File not found at " ++ file_path ++ ". Skipping.".

Definition mismatch_line (prefix : string) : string :=
  "Warning: Mismatch in record counts for prefix '" ++ prefix ++ "'. Skipping.".

Definition counts_line (h l r : nat) : string :=
  "  Heavy chains: " ++ str_of_nat h ++ ", Light chains: " ++ str_of_nat l
  ++ ", Reactivity values: " ++ str_of_nat r.

Definition success_line : string :=
  nl ++ "Successfully consolidated all data into '" ++ output_filename ++ "'".

Definition total_line (n : nat) : string :=
  "Total records processed: " ++ str_of_nat n.

Definition missing_lines (prefix : string) : list string :=
  (match fs (heavy_chain_path prefix) with
   | None => [missing_line (heavy_chain_path prefix)]
   | Some _ => []
   end ++
   match fs (light_chain_path prefix) with
   | None => [missing_line (light_chain_path prefix)]
   | Some _ => []
   end)%list.

End Datasets.

(** The net effect of a piece of the run on the world: records appended,
    lines printed, and the exception that ended it, if any. *)
Record effect : Type := mkEffect {
  added : list dict;
  printed : list string;
  raised : option exn
}.

Definition run_effect (e : effect) : M unit :=
  fun w =>
    let w' := mkWorld (all_data w ++ added e) (stdout w ++ printed e) (written w) in
    match raised e with
    | None => Returns tt w'
    | Some x => Raises x w'
    end.

Definition then_effect (e1 e2 : effect) : effect :=
  match raised e1 with
  | Some _ => e1
  | None => mkEffect (added e1 ++ added e2) (printed e1 ++ printed e2) (raised e2)
  end.

Definition no_effect : effect := mkEffect [] [] None.

Definition dataset_effect (fs : string -> option string) (prefix : string)
  : effect :=
  match heavy_chains_of fs prefix, light_chains_of fs prefix with
  | Some hs, Some ls =>
      match reactivity_of fs prefix with
      | inl e => mkEffect [] [processing_line prefix] (Some e)
      | inr rs =>
          if negb (length hs =? length ls)%nat || negb (length hs =? length rs)%nat
          then mkEffect []
                 [processing_line prefix; mismatch_line prefix;
                  counts_line (length hs) (length ls) (length rs)] None
          else mkEffect (map (make_record prefix) (zip3 hs ls rs))
                 [processing_line prefix] None
      end
  | _, _ => mkEffect [] (processing_line prefix :: missing_lines fs prefix) None
  end.

(** The net effect of the loop over a list of prefixes. *)
Definition effects_of (fs : string -> option string) (ps : list string)
  : effect :=
  fold_right (fun p e => then_effect (dataset_effect fs p) e) no_effect ps.

(** What an outcome shows of the record list, and whether it raised. *)
Definition outcome_data {A} (o : outcome A) : list dict * option exn :=
  match o with
  | Returns _ w => (all_data w, None)
  | Raises e w => (all_data w, Some e)
  end.

(** ** Sample directories *)

Definition file (lines : list string) : string :=
  String.concat "" (map (fun l => l ++ nl)%string lines).

(** Only the [flu] sequence files exist; its reactivity file does not. *)
Definition fs_no_reactivity (p : string) : option string :=
  if String.eqb p "./flu_fastaH.txt" then Some (file [">h1"; "ACGT"])
  else if String.eqb p "./flu_fastaL.txt" then Some (file [">l1"; "GGCC"])
  else None.

(** Only the [flu] dataset exists, with a negative score on its one line. *)
Definition fs_negative (p : string) : option string :=
  if String.eqb p "./flu_fastaH.txt" then Some (file [">h1"; "ACGT"])
  else if String.eqb p "./flu_fastaL.txt" then Some (file [">l1"; "GGCC"])
  else if String.eqb p "./flu_NumReact.txt" then Some (file ["-1"])
  else None.

(** An empty directory. *)
Definition fs_empty (p : string) : option string := None.

(** All six datasets, [flu] with two records and the others with one. *)
Definition fs_six (p : string) : option string :=
  if String.eqb p "./flu_fastaH.txt"
  then Some (file [">h1 first"; "ACGT"; "AC GT"; ">h2"; "tt"])
  else if String.eqb p "./flu_fastaL.txt"
  then Some (file [">l1"; "GGCC"; ">l2"; "CC"])
  else if String.eqb p "./flu_NumReact.txt"
  then Some (file ["Reacts"; "3"; ""; " 0 "])
  else if String.eqb p "./mouse_fastaH.dat" then Some (file [">m"; "acgt"])
  else if String.eqb p "./mouse_fastaL.dat" then Some (file [">m"; "ggcc"])
  else if String.eqb p "./mouse_YN.txt" then Some (file ["y"])
  else if String.eqb p "./plos_hiv_YN.txt" then Some (file ["N"; "?"])
  else if String.prefix "./mouse" p then None
  else if String.eqb p "./gut_hiv_fastaH.txt" || String.eqb p "./nat_cntrl_fastaH.txt"
          || String.eqb p "./nat_hiv_fastaH.txt" || String.eqb p "./plos_hiv_fastaH.txt"
  then Some (file [">h"; "ACGT"])
  else if String.eqb p "./gut_hiv_fastaL.txt" || String.eqb p "./nat_cntrl_fastaL.txt"
          || String.eqb p "./nat_hiv_fastaL.txt" || String.eqb p "./plos_hiv_fastaL.txt"
  then Some (file [">l"; "GGCC"])
  else if String.eqb p "./gut_hiv_NumReact.txt" || String.eqb p "./nat_cntrl_NumReact.txt"
          || String.eqb p "./nat_hiv_NumReact.txt"
  then Some (file ["2"])
  else None.

(** The [gut_hiv] dataset has two heavy chains, two light chains and one
    score; nothing else exists. *)
Definition fs_mismatch (p : string) : option string :=
  if String.eqb p "./gut_hiv_fastaH.txt" then Some (file [">a"; "AC"; ">b"; "GT"])
  else if String.eqb p "./gut_hiv_fastaL.txt" then Some (file [">a"; "AC"; ">b"; "GT"])
  else if String.eqb p "./gut_hiv_NumReact.txt" then Some (file ["1"])
  else None.

(** A sequence file with text before its first record delimiter. *)
Definition pre_header_text : string := file ["notes"; "ACGT"].
Definition one_record_text : string := file [">h1"; "TT"].

Definition fs_pre_header (p : string) : option string :=
  if String.eqb p "seqs.txt" then Some (pre_header_text ++ one_record_text)%string
  else if String.eqb p "plain.txt" then Some one_record_text
  else None.

(** ** Further vocabulary for the properties of the code *)

(** Every character of [s] satisfies [P]. *)
Fixpoint all_chars (P : ascii -> bool) (s : string) : bool :=
  match s with
  | "" => true
  | String c r => P c && all_chars P r
  end.

(** The characters [int] accepts besides surrounding whitespace. *)
Definition int_char (c : ascii) : bool :=
  is_digit c || Ascii.eqb c "_" || Ascii.eqb c "+" || Ascii.eqb c "-".

(** A record as it is usually laid out: a header line, then the sequence
    broken over lines; [render_fasta] puts the delimiter before each. *)
Definition render_record (r : string * list string) : string :=
  (fst r ++ nl ++ file (snd r))%string.

Definition render_fasta (recs : list (string * list string)) : string :=
  fasta_text (map render_record recs).

(** A header holds neither a line break nor a delimiter; a sequence line
    holds neither whitespace nor a delimiter. *)
Definition plain_record (r : string * list string) : Prop :=
  str_index LF (fst r) = None
  /\ no_delim (fst r)
  /\ Forall (fun l => has_whitespace l = false /\ no_delim l) (snd r).

Definition case_of (make_uppercase : bool) (s : string) : string :=
  if make_uppercase then upper s else s.

(** The [flu] reactivity file has a line that is no integer. *)
Definition fs_bad_number (p : string) : option string :=
  if String.eqb p "./flu_fastaH.txt" then Some (file [">h1"; "ACGT"])
  else if String.eqb p "./flu_fastaL.txt" then Some (file [">l1"; "GGCC"])
  else if String.eqb p "./flu_NumReact.txt" then Some (file ["2"; "n/a"])
  else None.

(** The [flu] heavy-chain file is missing and its reactivity file is
    malformed. *)
Definition fs_no_heavy (p : string) : option string :=
  if String.eqb p "./flu_fastaL.txt" then Some (file [">l1"; "GGCC"])
  else if String.eqb p "./flu_NumReact.txt" then Some (file ["n/a"])
  else None.

(** The [flu] dataset of [fs_negative], beside the [mouse] sequence
    files. *)
Definition fs_flu_and_mouse (p : string) : option string :=
  if String.eqb p "./mouse_fastaH.dat" then Some (file [">m"; "acgt"])
  else if String.eqb p "./mouse_fastaL.dat" then Some (file [">m"; "ggcc"])
  else fs_negative p.

(** The records a dataset gives to a run that returns: those of its files
    when the three counts agree, none otherwise. *)
Definition kept_records (fs : string -> option string) (prefix : string)
  : list dict :=
  match counts_of fs prefix with
  | Some (h, l, r) =>
      if (h =? l)%nat && (h =? r)%nat then dataset_records fs prefix else []
  | None => []
  end.

(** ** Facts about the string primitives *)

Section StringFacts.

Lemma append_empty_r (s : string) : (s ++ "")%string = s.
Proof. induction s as [|c s IH]; simpl; [reflexivity | now rewrite IH]. Qed.

Lemma append_assoc (a b c : string) :
  ((a ++ b) ++ c)%string = (a ++ (b ++ c))%string.
Proof. induction a as [|x a IH]; simpl; [reflexivity | now rewrite IH]. Qed.

Lemma truthy_false (s : string) : truthy s = false -> s = "".
Proof. destruct s; [reflexivity | discriminate]. Qed.

Lemma truthy_append_r (a b : string) :
  truthy b = true -> truthy (a ++ b) = true.
Proof. destruct a; simpl; auto. Qed.

Lemma concat_empty_cons (x : string) (xs : list string) :
  String.concat "" (x :: xs) = (x ++ String.concat "" xs)%string.
Proof.
  destruct xs as [|y ys]; simpl.
  - now rewrite append_empty_r.
  - reflexivity.
Qed.

(** *** Whitespace *)

Lemma rstrip_nonspace (c : ascii) (r : string) :
  isspace c = false -> rstrip (String c r) = String c (rstrip r).
Proof. intros H; simpl; now rewrite H. Qed.

Lemma rstrip_append (s t : string) :
  truthy (rstrip t) = true -> rstrip (s ++ t) = (s ++ rstrip t)%string.
Proof.
  intros Ht; induction s as [|c s IH]; simpl; [reflexivity|].
  rewrite IH, (truthy_append_r s _ Ht), andb_false_r; reflexivity.
Qed.

Lemma lstrip_append_nonspace (s t : string) (c : ascii) :
  isspace c = false ->
  lstrip (s ++ String c t) = (lstrip s ++ String c t)%string.
Proof.
  intros Hc; induction s as [|x s IH]; simpl.
  - now rewrite Hc.
  - destruct (isspace x); [exact IH | reflexivity].
Qed.

Lemma truthy_rstrip (s : string) :
  truthy (rstrip s) = truthy (remove_whitespace s).
Proof.
  induction s as [|c s IH]; simpl; [reflexivity|].
  destruct (isspace c); simpl; [|reflexivity].
  rewrite <- IH; destruct (truthy (rstrip s)); reflexivity.
Qed.

Lemma truthy_lstrip (s : string) :
  truthy (lstrip s) = truthy (remove_whitespace s).
Proof.
  induction s as [|c s IH]; simpl; [reflexivity|].
  destruct (isspace c); [exact IH | reflexivity].
Qed.

Lemma remove_whitespace_rstrip (s : string) :
  remove_whitespace (rstrip s) = remove_whitespace s.
Proof.
  induction s as [|c s IH]; simpl; [reflexivity|].
  destruct (isspace c) eqn:Hc; simpl.
  - destruct (truthy (rstrip s)) eqn:Ht; simpl.
    + now rewrite Hc.
    + rewrite truthy_rstrip in Ht. symmetry; now apply truthy_false.
  - now rewrite Hc, IH.
Qed.

Lemma truthy_strip (s : string) :
  truthy (strip s) = truthy (remove_whitespace s).
Proof.
  unfold strip; now rewrite truthy_lstrip, remove_whitespace_rstrip.
Qed.

Lemma blank_drop_header_line (s : string) :
  remove_whitespace s = "" -> remove_whitespace (drop_header_line s) = "".
Proof.
  induction s as [|c s IH]; simpl; [reflexivity|].
  destruct (isspace c); [|discriminate].
  intros H; destruct (Ascii.eqb c LF); auto.
Qed.

Lemma join_split_ws (s : string) :
  join_empty (split_ws s) = remove_whitespace s.
Proof.
  unfold join_empty.
  induction s as [|c s IH]; [reflexivity|].
  cbn [split_ws remove_whitespace].
  destruct (isspace c) eqn:Hc; [exact IH|].
  destruct s as [|c' s']; [reflexivity|].
  destruct (isspace c') eqn:Hc'.
  - rewrite concat_empty_cons, IH; reflexivity.
  - destruct (split_ws (String c' s')) as [|h t] eqn:Hs.
    + cbn [remove_whitespace] in IH; rewrite Hc' in IH; discriminate.
    + rewrite concat_empty_cons in *; simpl. now rewrite IH.
Qed.

Lemma has_whitespace_remove (s : string) :
  has_whitespace (remove_whitespace s) = false.
Proof.
  induction s as [|c s IH]; simpl; [reflexivity|].
  destruct (isspace c) eqn:Hc; simpl; [exact IH | now rewrite Hc].
Qed.

Lemma isspace_upper_char (c : ascii) : isspace (upper_char c) = isspace c.
Proof.
  destruct c as [[] [] [] [] [] [] [] []]; vm_compute; reflexivity.
Qed.

Lemma upper_char_idempotent (c : ascii) :
  upper_char (upper_char c) = upper_char c.
Proof.
  destruct c as [[] [] [] [] [] [] [] []]; vm_compute; reflexivity.
Qed.

Lemma upper_idempotent (s : string) : upper (upper s) = upper s.
Proof.
  unfold upper; induction s as [|c s IH]; simpl; [reflexivity|].
  now rewrite upper_char_idempotent, IH.
Qed.

Lemma has_whitespace_upper (s : string) :
  has_whitespace (upper s) = has_whitespace s.
Proof.
  unfold upper; induction s as [|c s IH]; simpl; [reflexivity|].
  now rewrite isspace_upper_char, IH.
Qed.

Lemma truthy_upper (s : string) : truthy (upper s) = truthy s.
Proof. destruct s; reflexivity. Qed.

(** *** Splitting and indexing *)

Lemma split_on_no_sep (d : ascii) (s : string) :
  str_index d s = None -> split_on d s = [s].
Proof.
  induction s as [|c s IH]; simpl; [reflexivity|].
  destruct (Ascii.eqb c d); [discriminate|].
  destruct (str_index d s); [discriminate|].
  intros _; now rewrite IH.
Qed.

Lemma split_on_append (d : ascii) (s t : string) :
  str_index d s = None ->
  split_on d (s ++ String d t) = s :: split_on d t.
Proof.
  induction s as [|c s IH]; simpl.
  - now rewrite Ascii.eqb_refl.
  - destruct (Ascii.eqb c d); [discriminate|].
    destruct (str_index d s); [discriminate|].
    intros _; now rewrite IH.
Qed.

Lemma str_index_lstrip (d : ascii) (s : string) :
  str_index d s = None -> str_index d (lstrip s) = None.
Proof.
  induction s as [|c s IH]; simpl; [reflexivity|].
  destruct (Ascii.eqb c d) eqn:E; [discriminate|].
  destruct (str_index d s) eqn:Hs; [discriminate|].
  intros _; destruct (isspace c); [now apply IH | simpl; now rewrite E, Hs].
Qed.

Lemma str_index_rstrip (d : ascii) (s : string) :
  str_index d s = None -> str_index d (rstrip s) = None.
Proof.
  induction s as [|c s IH]; simpl; [reflexivity|].
  destruct (Ascii.eqb c d) eqn:E; [discriminate|].
  destruct (str_index d s) eqn:Hs; [discriminate|].
  intros _; destruct (isspace c && negb (truthy (rstrip s))); [reflexivity|].
  simpl; now rewrite E, IH.
Qed.

Lemma slice_after_index (s : string) :
  match str_index LF s with
  | Some i => slice_from (i + 1) s
  | None => ""
  end = drop_header_line s.
Proof.
  induction s as [|c s IH]; simpl; [reflexivity|].
  destruct (Ascii.eqb c LF); [reflexivity|].
  destruct (str_index LF s) as [i|]; [|exact IH].
  rewrite Nat.add_1_r in *; exact IH.
Qed.

Lemma drop_header_line_rstrip (s : string) :
  remove_whitespace (drop_header_line (rstrip s))
  = remove_whitespace (drop_header_line s).
Proof.
  induction s as [|c s IH]; simpl; [reflexivity|].
  destruct (isspace c && negb (truthy (rstrip s))) eqn:E.
  - apply andb_prop in E as [Hc Ht]. apply negb_true_iff in Ht.
    rewrite truthy_rstrip in Ht. apply truthy_false in Ht.
    simpl. symmetry.
    destruct (Ascii.eqb c LF); [exact Ht | now apply blank_drop_header_line].
  - simpl. destruct (Ascii.eqb c LF); [apply remove_whitespace_rstrip | exact IH].
Qed.

End StringFacts.
(** ** The sequence parser *)

Section ParserFacts.

Variable make_uppercase : bool.

(** What one fragment adds to [sequences]. *)
Lemma record_step_cleaned (sequences : list string) (block : string) :
  record_step make_uppercase sequences block
  = sequences ++ filter truthy [cleaned make_uppercase block].
Proof.
  unfold record_step, cleaned.
  rewrite slice_after_index, join_split_ws, truthy_strip.
  destruct (truthy (remove_whitespace block)) eqn:Hb; simpl.
  - destruct make_uppercase;
      match goal with |- context [truthy ?x] => destruct (truthy x) end;
      now rewrite ?app_nil_r.
  - apply truthy_false in Hb. rewrite (blank_drop_header_line _ Hb).
    destruct make_uppercase; simpl; now rewrite app_nil_r.
Qed.

Lemma fold_record_step (blocks : list string) (sequences : list string) :
  fold_left (record_step make_uppercase) blocks sequences
  = sequences ++ cleaned_sequences make_uppercase blocks.
Proof.
  revert sequences; induction blocks as [|b bs IH]; intros sequences; simpl.
  - now rewrite app_nil_r.
  - rewrite IH, record_step_cleaned, <- app_assoc. f_equal.
    unfold cleaned_sequences; simpl.
    destruct (truthy (cleaned make_uppercase b)); reflexivity.
Qed.

Lemma parse_fasta_text_cleaned (text : string) :
  parse_fasta_text make_uppercase text
  = cleaned_sequences make_uppercase (split_on ">" (strip text)).
Proof. unfold parse_fasta_text; now rewrite fold_record_step. Qed.

Lemma cleaned_rstrip (b : string) :
  cleaned make_uppercase (rstrip b) = cleaned make_uppercase b.
Proof. unfold cleaned; now rewrite drop_header_line_rstrip. Qed.

Lemma strip_delim (x : string) : strip (String ">" x) = String ">" (rstrip x).
Proof. unfold strip; rewrite rstrip_nonspace by reflexivity; reflexivity. Qed.

Lemma rstrip_append_delim (pre rest : string) :
  rstrip (pre ++ String ">" rest) = (pre ++ String ">" (rstrip rest))%string.
Proof.
  rewrite rstrip_append; now rewrite rstrip_nonspace by reflexivity.
Qed.

(** The fragment before the first delimiter goes through the loop like
    any other, after the leading whitespace of the text is trimmed. *)
Lemma parse_fasta_text_pre_header (pre rest : string) :
  no_delim pre ->
  parse_fasta_text make_uppercase (pre ++ String ">" rest)
  = filter truthy [cleaned make_uppercase (lstrip pre)]
    ++ parse_fasta_text make_uppercase (String ">" rest).
Proof.
  intros Hpre. rewrite !parse_fasta_text_cleaned, strip_delim.
  unfold strip. rewrite rstrip_append_delim.
  rewrite lstrip_append_nonspace by reflexivity.
  rewrite split_on_append by now apply str_index_lstrip.
  change (split_on ">" (String ">" (rstrip rest)))
    with ("" :: split_on ">" (rstrip rest)).
  unfold cleaned_sequences; simpl.
  destruct make_uppercase; simpl;
    match goal with |- context [truthy ?x] => destruct (truthy x) end;
    reflexivity.
Qed.

Lemma parse_fasta_text_records (bodies : list string) :
  Forall no_delim bodies ->
  parse_fasta_text make_uppercase (fasta_text bodies)
  = cleaned_sequences make_uppercase bodies.
Proof.
  induction 1 as [|b bs Hb Hbs IH]; [reflexivity|].
  destruct bs as [|b' bs'].
  - simpl. rewrite append_empty_r, parse_fasta_text_cleaned, strip_delim.
    change (split_on ">" (String ">" (rstrip b)))
      with ("" :: split_on ">" (rstrip b)).
    rewrite split_on_no_sep by now apply str_index_rstrip.
    unfold cleaned_sequences; simpl. rewrite cleaned_rstrip.
    destruct make_uppercase; reflexivity.
  - change (fasta_text (b :: b' :: bs'))
      with (String ">" (b ++ fasta_text (b' :: bs'))).
    change (String ">" (b ++ fasta_text (b' :: bs')))
      with (("" ++ String ">" b) ++ fasta_text (b' :: bs'))%string.
    change (fasta_text (b' :: bs'))
      with (String ">" (b' ++ fasta_text bs')) in *.
    simpl append.
    rewrite parse_fasta_text_cleaned, strip_delim, rstrip_append_delim.
    change (split_on ">" (String ">" ?x)) with ("" :: split_on ">" x).
    rewrite split_on_append by exact Hb.
    rewrite parse_fasta_text_cleaned, strip_delim in IH.
    change (split_on ">" (String ">" ?x)) with ("" :: split_on ">" x) in IH.
    unfold cleaned_sequences in *; simpl in *.
    assert (E : truthy (cleaned make_uppercase "") = false)
      by (destruct make_uppercase; reflexivity).
    rewrite E in *. rewrite IH. reflexivity.
Qed.

Lemma cleaned_no_whitespace (b : string) :
  has_whitespace (cleaned make_uppercase b) = false.
Proof.
  unfold cleaned; destruct make_uppercase;
    now rewrite ?has_whitespace_upper, has_whitespace_remove.
Qed.

Lemma cleaned_sequences_no_whitespace (bodies : list string) :
  Forall (fun s => has_whitespace s = false /\ s <> "")
    (cleaned_sequences make_uppercase bodies).
Proof.
  unfold cleaned_sequences. apply Forall_forall. intros s Hs.
  apply filter_In in Hs as [Hin Ht]. apply in_map_iff in Hin as [b [<- _]].
  split; [apply cleaned_no_whitespace|].
  intros E; rewrite E in Ht; discriminate.
Qed.

End ParserFacts.

Lemma parse_fasta_universal_existing fs path up text w :
  fs path = Some text ->
  parse_fasta_universal fs path up w
  = Returns (Some (parse_fasta_text up text)) w.
Proof.
  intros H. unfold parse_fasta_universal, try_except, bind, open_read.
  rewrite H. reflexivity.
Qed.

Lemma parse_fasta_universal_missing fs path up w :
  fs path = None ->
  parse_fasta_universal fs path up w
  = Returns None
      (mkWorld (all_data w) (stdout w ++ [missing_line path]) (written w)).
Proof.
  intros H. unfold parse_fasta_universal, try_except, bind, open_read.
  rewrite H. reflexivity.
Qed.

(** C3: on a file whose text is a sequence of delimiter-marked records,
    the parser returns the cleaned sequence of each record (header line
    removed, whitespace removed, uppercased on demand) in file order,
    leaving out the empty ones; no returned string holds whitespace. *)
Theorem parse_fasta_one_per_record fs path up bodies w :
  Forall no_delim bodies ->
  fs path = Some (fasta_text bodies) ->
  parse_fasta_universal fs path up w
  = Returns (Some (cleaned_sequences up bodies)) w
  /\ Forall (fun s => has_whitespace s = false /\ s <> "")
       (cleaned_sequences up bodies).
Proof.
  intros Hb Hf. split.
  - rewrite (parse_fasta_universal_existing _ _ _ _ _ Hf).
    now rewrite parse_fasta_text_records.
  - apply cleaned_sequences_no_whitespace.
Qed.

Lemma parse_fasta_one_per_record_witness :
  parse_fasta_universal fs_six "./flu_fastaH.txt" false start
  = Returns (Some ["ACGTACGT"; "tt"]) start
  /\ Forall (fun s => has_whitespace s = false /\ s <> "") ["ACGTACGT"; "tt"].
Proof.
  apply (parse_fasta_one_per_record fs_six "./flu_fastaH.txt" false
           [("h1 first" ++ nl ++ "ACGT" ++ nl ++ "AC GT" ++ nl)%string;
            ("h2" ++ nl ++ "tt" ++ nl)%string]
           start).
  - repeat constructor.
  - reflexivity.
Defined.

(** C7 (as amended): the fragment before the first delimiter is treated as
    a record once the leading whitespace of the text is trimmed: the rest
    of the text is parsed as it would be alone, and the fragment puts its
    own cleaned sequence in front unless that is empty. *)
Theorem pre_header_fragment_parsed fs path up pre rest w :
  no_delim pre ->
  fs path = Some (pre ++ String ">" rest)%string ->
  parse_fasta_universal fs path up w
  = Returns (Some (filter truthy [cleaned up (lstrip pre)]
                   ++ parse_fasta_text up (String ">" rest))) w.
Proof.
  intros Hpre Hf.
  rewrite (parse_fasta_universal_existing _ _ _ _ _ Hf).
  now rewrite parse_fasta_text_pre_header.
Qed.

Lemma pre_header_fragment_parsed_witness :
  parse_fasta_universal fs_pre_header "seqs.txt" true start
  = Returns (Some ["ACGT"; "TT"]) start.
Proof.
  apply (pre_header_fragment_parsed fs_pre_header "seqs.txt" true
           pre_header_text ("h1" ++ nl ++ "TT" ++ nl)%string start).
  - reflexivity.
  - reflexivity.
Defined.

(** C7 as stated fails: the text of seqs.txt is that of plain.txt with two
    lines in front of the first delimiter, and the second of those lines
    comes back as a sequence. *)
Lemma pre_header_not_discarded :
  no_delim pre_header_text
  /\ fs_pre_header "seqs.txt" = Some (pre_header_text ++ one_record_text)%string
  /\ fs_pre_header "plain.txt" = Some one_record_text
  /\ parse_fasta_universal fs_pre_header "plain.txt" false start
     = Returns (Some ["TT"]) start
  /\ parse_fasta_universal fs_pre_header "seqs.txt" false start
     = Returns (Some ["ACGT"; "TT"]) start
  /\ parse_fasta_universal fs_pre_header "seqs.txt" false start
     <> parse_fasta_universal fs_pre_header "plain.txt" false start.
Proof. repeat split; try reflexivity. vm_compute; discriminate. Qed.

(** C9: every string returned with [make_uppercase=True] is unchanged by
    another [upper()]. *)
Theorem uppercase_parse_idempotent fs path w seqs w' :
  parse_fasta_universal fs path true w = Returns (Some seqs) w' ->
  Forall (fun s => upper s = s) seqs.
Proof.
  destruct (fs path) as [text|] eqn:Hf.
  - rewrite (parse_fasta_universal_existing _ _ _ _ _ Hf).
    intros [= <- _]. rewrite parse_fasta_text_cleaned.
    apply Forall_forall. intros s Hs.
    apply filter_In in Hs as [Hin _]. apply in_map_iff in Hin as [b [<- _]].
    apply upper_idempotent.
  - rewrite (parse_fasta_universal_missing _ _ _ _ Hf). discriminate.
Qed.

Lemma uppercase_parse_idempotent_witness :
  Forall (fun s => upper s = s) ["ACGT"].
Proof.
  apply (uppercase_parse_idempotent fs_six "./mouse_fastaH.dat" start
           ["ACGT"] start).
  reflexivity.
Defined.

(** ** The reactivity readers *)

Lemma open_read_existing fs path text w :
  fs path = Some text -> open_read fs path w = Returns text w.
Proof. intros H; unfold open_read; now rewrite H. Qed.

Lemma open_read_missing fs path w :
  fs path = None -> open_read fs path w = Raises (FileNotFoundError path) w.
Proof. intros H; unfold open_read; now rewrite H. Qed.

Lemma upper_char_cases (x : ascii) :
  upper_char x = x \/ lower_char (upper_char x) = x.
Proof.
  destruct x as [[] [] [] [] [] [] [] []]; vm_compute; auto.
Qed.

Lemma upper_lower_char (c : ascii) :
  upper_char c = c -> upper_char (lower_char c) = c.
Proof.
  destruct c as [[] [] [] [] [] [] [] []]; vm_compute; congruence.
Qed.

Lemma upper_is_letter (s : string) (c : ascii) :
  upper_char c = c ->
  String.eqb (upper s) (String c "")
  = String.eqb s (String c "") || String.eqb s (String (lower_char c) "").
Proof.
  intros Hu. destruct s as [|x [|y r]].
  - reflexivity.
  - unfold upper; simpl.
    destruct (Ascii.eqb_spec x c) as [->|Hxc].
    + now rewrite Hu, Ascii.eqb_refl.
    + destruct (Ascii.eqb_spec x (lower_char c)) as [->|Hxl].
      * now rewrite (upper_lower_char _ Hu), Ascii.eqb_refl.
      * destruct (Ascii.eqb_spec (upper_char x) c) as [E|]; [|reflexivity].
        exfalso. destruct (upper_char_cases x) as [H|H]; congruence.
  - unfold upper; simpl.
    repeat match goal with
           | |- context [Ascii.eqb ?a ?b] => destruct (Ascii.eqb a b)
           end; reflexivity.
Qed.

Lemma binary_step_entry (acc : list Z) (line : string) :
  binary_step acc line = acc ++ yn_entry line.
Proof.
  unfold binary_step, yn_entry.
  rewrite (upper_is_letter _ "Y") by reflexivity.
  rewrite (upper_is_letter _ "N") by reflexivity.
  change (lower_char "Y") with "y"%char. change (lower_char "N") with "n"%char.
  destruct (String.eqb (strip line) "Y" || String.eqb (strip line) "y");
    [reflexivity|].
  destruct (String.eqb (strip line) "N" || String.eqb (strip line) "n");
    [reflexivity | now rewrite app_nil_r].
Qed.

Lemma fold_binary_step (lines : list string) (acc : list Z) :
  fold_left binary_step lines acc = acc ++ flat_map yn_entry lines.
Proof.
  revert acc; induction lines as [|l ls IH]; intros acc; simpl.
  - now rewrite app_nil_r.
  - now rewrite IH, binary_step_entry, <- app_assoc.
Qed.

Lemma for_fold_numeric_step (lines : list string) (acc : list Z) (w : world) :
  for_fold lines numeric_step acc w
  = match parse_ints (filter (fun l => negb (blank l)) lines) with
    | inl e => Raises e w
    | inr zs => Returns (acc ++ zs) w
    end.
Proof.
  revert acc; induction lines as [|l ls IH]; intros acc; simpl.
  - unfold ret; now rewrite app_nil_r.
  - unfold bind, numeric_step, blank. rewrite negb_involutive.
    destruct (truthy (strip l)); simpl.
    + unfold bind, int_of.
      destruct (py_int (strip l)) as [z|]; [|reflexivity].
      unfold ret at 1. unfold ret at 1. rewrite IH.
      destruct (parse_ints _); [reflexivity | now rewrite <- app_assoc].
    + unfold ret at 1. apply IH.
Qed.

Lemma process_react_numeric_existing fs path text w :
  fs path = Some text ->
  process_react_numeric fs path w
  = match numeric_values text with
    | inr zs => Returns zs w
    | inl e => Raises e w
    end.
Proof.
  intros Hf. unfold process_react_numeric, bind.
  rewrite (open_read_existing _ _ _ _ Hf).
  unfold numeric_values, data_lines, has_header.
  destruct (readlines text) as [|first rest].
  - reflexivity.
  - destruct (contains "reacts" (lower first));
      rewrite for_fold_numeric_step; cbn [tl];
      destruct (parse_ints _); reflexivity.
Qed.

Lemma process_react_binary_existing fs path text w :
  fs path = Some text ->
  process_react_binary fs path w = Returns (binary_values text) w.
Proof.
  intros Hf. unfold process_react_binary, bind.
  rewrite (open_read_existing _ _ _ _ Hf).
  unfold ret, binary_values. now rewrite fold_binary_step.
Qed.

(** C5: on an existing file the numeric reader drops the first line exactly
    when its lowercased content contains "reacts", skips the blank lines,
    and parses every other line, trimmed, as an integer in order; the
    first such line that is no integer raises [ValueError], which the
    reader lets through. *)
Theorem numeric_reader_spec fs path text w :
  fs path = Some text ->
  process_react_numeric fs path w
  = match numeric_values text with
    | inr zs => Returns zs w
    | inl e => Raises e w
    end.
Proof. exact (process_react_numeric_existing fs path text w). Qed.

Lemma numeric_reader_spec_witness :
  process_react_numeric fs_six "./flu_NumReact.txt" start
  = Returns [3%Z; 0%Z] start.
Proof.
  apply (numeric_reader_spec fs_six "./flu_NumReact.txt"
           (file ["Reacts"; "3"; ""; " 0 "]) start).
  reflexivity.
Defined.

(** C6: on an existing file the binary reader trims each line and gives 4
    for Y or y, 0 for N or n, and nothing, without an error, for any other
    line, blank ones included; the entries come in line order. *)
Theorem binary_reader_spec fs path text w :
  fs path = Some text ->
  process_react_binary fs path w = Returns (binary_values text) w.
Proof. exact (process_react_binary_existing fs path text w). Qed.

Lemma binary_reader_spec_witness :
  process_react_binary fs_six "./plos_hiv_YN.txt" start
  = Returns [0%Z] start.
Proof.
  apply (binary_reader_spec fs_six "./plos_hiv_YN.txt" (file ["N"; "?"]) start).
  reflexivity.
Defined.

(** ** The driver loop *)

Lemma process_react_numeric_missing fs path w :
  fs path = None ->
  process_react_numeric fs path w = Raises (FileNotFoundError path) w.
Proof.
  intros Hf. unfold process_react_numeric, bind.
  now rewrite (open_read_missing _ _ _ Hf).
Qed.

Lemma process_react_binary_missing fs path w :
  fs path = None ->
  process_react_binary fs path w = Raises (FileNotFoundError path) w.
Proof.
  intros Hf. unfold process_react_binary, bind.
  now rewrite (open_read_missing _ _ _ Hf).
Qed.

Lemma read_reactivity_of fs prefix w :
  read_reactivity fs prefix w
  = match reactivity_of fs prefix with
    | inr rs => Returns rs w
    | inl e => Raises e w
    end.
Proof.
  unfold read_reactivity, reactivity_of, reactivity_path, is_binary.
  destruct (mem prefix ["mouse"; "plos_hiv"]).
  - destruct (fs _) as [text|] eqn:Hf.
    + now rewrite (process_react_binary_existing _ _ _ _ Hf).
    + now rewrite (process_react_binary_missing _ _ _ Hf).
  - destruct (fs _) as [text|] eqn:Hf.
    + rewrite (process_react_numeric_existing _ _ _ _ Hf).
      destruct (numeric_values text); reflexivity.
    + now rewrite (process_react_numeric_missing _ _ _ Hf).
Qed.

Lemma for_each_all_data_append {A} (f : A -> dict) (xs : list A) (w : world) :
  for_each xs (fun t => all_data_append (f t)) w
  = Returns tt (mkWorld (all_data w ++ map f xs) (stdout w) (written w)).
Proof.
  revert w; induction xs as [|x xs IH]; intros [d o f']; simpl.
  - unfold ret; now rewrite app_nil_r.
  - unfold bind, all_data_append; simpl. rewrite IH; simpl.
    now rewrite <- app_assoc.
Qed.

(** One turn of the loop changes the world by the effect of its dataset. *)
Lemma loop_body_effect fs prefix w :
  loop_body fs prefix w = run_effect (dataset_effect fs prefix) w.
Proof.
  destruct w as [d o f'].
  unfold loop_body, dataset_effect, heavy_chains_of, light_chains_of,
    missing_lines, run_effect, bind at 1, print at 1; simpl.
  destruct (fs (heavy_chain_path prefix)) as [th|] eqn:Hh;
    destruct (fs (light_chain_path prefix)) as [tl|] eqn:Hl; simpl;
    unfold bind at 1;
    rewrite ?(parse_fasta_universal_existing _ _ _ _ _ Hh),
      ?(parse_fasta_universal_missing _ _ _ _ Hh);
    unfold bind at 1;
    rewrite ?(parse_fasta_universal_existing _ _ _ _ _ Hl),
      ?(parse_fasta_universal_missing _ _ _ _ Hl);
    simpl; unfold ret; rewrite <- ?app_assoc, ?app_nil_r; try reflexivity.
  unfold bind at 1. rewrite read_reactivity_of.
  destruct (reactivity_of fs prefix) as [e|rs];
    [simpl; now rewrite app_nil_r|].
  destruct (negb _ || negb _); simpl.
  - unfold bind, print; simpl. rewrite <- !app_assoc, app_nil_r. reflexivity.
  - rewrite for_each_all_data_append. reflexivity.
Qed.

Lemma run_effect_then (e1 e2 : effect) (w : world) :
  run_effect (then_effect e1 e2) w
  = bind (run_effect e1) (fun _ => run_effect e2) w.
Proof.
  destruct w as [d o f']. unfold then_effect, bind, run_effect.
  destruct (raised e1) eqn:E; simpl; [now rewrite E|].
  now rewrite !app_assoc.
Qed.

Lemma for_each_effect fs (ps : list string) (w : world) :
  for_each ps (loop_body fs) w = run_effect (effects_of fs ps) w.
Proof.
  revert w; induction ps as [|p ps IH]; intros w; simpl.
  - destruct w; unfold ret, run_effect; simpl. now rewrite !app_nil_r.
  - rewrite run_effect_then. unfold bind. rewrite loop_body_effect.
    destruct (run_effect (dataset_effect fs p) w); [apply IH | reflexivity].
Qed.

(** The whole run, from the effect of its loop. *)
Lemma main_effect fs (w : world) :
  main fs w
  = let e := effects_of fs prefixes in
    match raised e with
    | Some x => Raises x (mkWorld (added e) (stdout w ++ printed e) (written w))
    | None =>
        Returns tt
          (mkWorld (added e)
             (stdout w ++ printed e
              ++ [success_line; total_line (length (added e))])
             (written w ++ [(output_filename, dumps 2 (added e))]))
    end.
Proof.
  unfold main, bind at 1, all_data_init. unfold bind at 1.
  rewrite for_each_effect. unfold run_effect; cbv zeta.
  destruct (raised (effects_of fs prefixes)); [reflexivity|].
  unfold bind, get_all_data, write_file, print; cbn [all_data stdout written].
  rewrite <- !app_assoc. reflexivity.
Qed.

(** *** Datasets that are kept, skipped, or fatal *)

Lemma zip3_length {A B C} (a : list A) (b : list B) (c : list C) (n : nat) :
  length a = n -> length b = n -> length c = n -> length (zip3 a b c) = n.
Proof.
  revert b c n; induction a as [|x a IH]; intros [|y b] [|z c] n;
    simpl; intros Ha Hb Hc; try congruence.
  destruct n as [|n]; [discriminate|].
  f_equal. apply IH; congruence.
Qed.

Lemma zip3_In {A B C} (a : list A) (b : list B) (c : list C) x y z :
  In (x, y, z) (zip3 a b c) -> In x a /\ In y b /\ In z c.
Proof.
  revert b c; induction a as [|x' a IH]; intros [|y' b] [|z' c];
    simpl; try contradiction.
  intros [[= -> -> ->]|H]; [auto|].
  apply IH in H as (? & ? & ?); auto.
Qed.

Lemma dataset_effect_kept fs prefix n :
  counts_of fs prefix = Some (n, n, n) ->
  dataset_effect fs prefix
  = mkEffect (dataset_records fs prefix) [processing_line prefix] None
  /\ length (dataset_records fs prefix) = n.
Proof.
  unfold counts_of, dataset_effect, dataset_records.
  destruct (heavy_chains_of fs prefix) as [hs|]; [|discriminate].
  destruct (light_chains_of fs prefix) as [ls|]; [|discriminate].
  destruct (reactivity_of fs prefix) as [e|rs]; [discriminate|].
  intros [= Hh Hl Hr]. rewrite Hh, Hl, Hr, Nat.eqb_refl. simpl. split.
  - reflexivity.
  - rewrite length_map. now apply zip3_length.
Qed.

Lemma dataset_effect_skipped fs prefix :
  is_skipped fs prefix = true ->
  added (dataset_effect fs prefix) = []
  /\ raised (dataset_effect fs prefix) = None.
Proof.
  unfold is_skipped, dataset_effect.
  destruct (heavy_chains_of fs prefix) as [hs|]; [|auto].
  destruct (light_chains_of fs prefix) as [ls|]; [|auto].
  destruct (reactivity_of fs prefix) as [e|rs]; [discriminate|].
  intros ->. auto.
Qed.

Lemma effects_of_kept fs (N : string -> nat) (ps : list string) :
  (forall p, In p ps -> counts_of fs p = Some (N p, N p, N p)) ->
  effects_of fs ps
  = mkEffect (flat_map (dataset_records fs) ps) (map processing_line ps) None
  /\ length (flat_map (dataset_records fs) ps) = list_sum (map N ps).
Proof.
  induction ps as [|p ps IH]; intros H; simpl; [auto|].
  destruct (dataset_effect_kept fs p (N p)) as [E L]; [apply H; now left|].
  destruct IH as [E' L']; [intros q Hq; apply H; now right|].
  rewrite E, E', length_app, L, L'. auto.
Qed.

Lemma effects_of_skipped fs (ps : list string) :
  (forall p, In p ps -> is_skipped fs p = true) ->
  added (effects_of fs ps) = [] /\ raised (effects_of fs ps) = None.
Proof.
  induction ps as [|p ps IH]; intros H; simpl; [auto|].
  destruct (dataset_effect_skipped fs p) as [A R]; [apply H; now left|].
  destruct IH as [A' R']; [intros q Hq; apply H; now right|].
  unfold then_effect. rewrite R; simpl. rewrite A, A', R'. auto.
Qed.

Lemma effects_of_without fs (prefix : string) (before after : list string) :
  added (dataset_effect fs prefix) = [] ->
  raised (dataset_effect fs prefix) = None ->
  added (effects_of fs (before ++ prefix :: after))
  = added (effects_of fs (before ++ after))
  /\ raised (effects_of fs (before ++ prefix :: after))
     = raised (effects_of fs (before ++ after)).
Proof.
  intros A R. induction before as [|q qs [IHa IHr]]; simpl.
  - unfold then_effect. rewrite R; simpl. now rewrite A.
  - unfold then_effect. destruct (raised (dataset_effect fs q)); [auto|].
    simpl. now rewrite IHa, IHr.
Qed.

Lemma added_effects_of_In fs (ps : list string) (d : dict) :
  In d (added (effects_of fs ps)) ->
  exists p, In p ps /\ In d (added (dataset_effect fs p)).
Proof.
  induction ps as [|p ps IH]; simpl; [contradiction|].
  unfold then_effect. destruct (raised (dataset_effect fs p)); simpl.
  - intros H; exists p; auto.
  - intros H; apply in_app_or in H as [H|H].
    + exists p; auto.
    + destruct (IH H) as [q [Hq Hd]]; exists q; auto.
Qed.

Lemma added_dataset_effect_In fs (prefix : string) (d : dict) :
  In d (added (dataset_effect fs prefix)) ->
  exists h l r rs,
    d = make_record prefix (h, l, r)
    /\ reactivity_of fs prefix = inr rs /\ In r rs.
Proof.
  unfold dataset_effect.
  destruct (heavy_chains_of fs prefix) as [hs|]; [|contradiction].
  destruct (light_chains_of fs prefix) as [ls|]; [|contradiction].
  destruct (reactivity_of fs prefix) as [e|rs]; [contradiction|].
  destruct (negb _ || negb _); simpl; [contradiction|].
  intros H. apply in_map_iff in H as [[[h l] r] [<- Hin]].
  apply zip3_In in Hin as (_ & _ & Hr).
  exists h, l, r, rs. auto.
Qed.

Lemma parse_ints_In (lines : list string) (zs : list Z) (z : Z) :
  parse_ints lines = inr zs -> In z zs ->
  exists line, In line lines /\ py_int (strip line) = Some z.
Proof.
  revert zs; induction lines as [|l ls IH]; intros zs; simpl.
  - intros [= <-] [].
  - destruct (py_int (strip l)) as [v|] eqn:Hv; [|discriminate].
    destruct (parse_ints ls) as [e|vs]; [discriminate|].
    intros [= <-] [<-|Hin].
    + exists l; auto.
    + destruct (IH vs eq_refl Hin) as [line [Hl Hp]]. exists line; auto.
Qed.

Lemma binary_values_In (text : string) (z : Z) :
  In z (binary_values text) -> z = 0%Z \/ z = 4%Z.
Proof.
  unfold binary_values. intros H.
  apply in_flat_map in H as [line [_ H]]. unfold yn_entry in H.
  destruct (_ || _); [destruct H as [<-|[]]; auto|].
  destruct (_ || _); [destruct H as [<-|[]]; auto | contradiction].
Qed.

(** X13: a missing heavy-chain or light-chain file skips the dataset: a
    warning per missing file is printed and no record is added; the
    reactivity file is not opened, so neither its absence nor its content
    can fail the run. *)
Lemma missing_sequence_file_skips fs prefix w :
  heavy_chains_of fs prefix = None \/ light_chains_of fs prefix = None ->
  loop_body fs prefix w
  = Returns tt
      (mkWorld (all_data w)
         (stdout w ++ processing_line prefix :: missing_lines fs prefix)
         (written w)).
Proof.
  intros H. rewrite loop_body_effect. unfold run_effect, dataset_effect.
  destruct (heavy_chains_of fs prefix) as [hs|];
    destruct (light_chains_of fs prefix) as [ls|]; simpl;
    try (now rewrite app_nil_r).
  destruct H; discriminate.
Qed.

(** ** The claims about the run *)

Lemma effects_of_raises fs (ps : list string) (p : string) (e : exn) :
  In p ps -> raised (dataset_effect fs p) = Some e ->
  exists e', raised (effects_of fs ps) = Some e'.
Proof.
  induction ps as [|q qs IH]; simpl; [contradiction|].
  intros Hin Hr. unfold then_effect.
  destruct (raised (dataset_effect fs q)) as [x|] eqn:Rq.
  - exists x. exact Rq.
  - simpl. destruct Hin as [->|Hin]; [congruence | auto].
Qed.

(** C1 (as amended): a missing heavy-chain or light-chain file is
    recovered: the turn of the dataset returns, having printed the
    progress line and one warning per missing sequence file, at least one,
    and added nothing, and the records of the run are those of the run
    without that dataset.  A missing reactivity file is not: when both
    sequence files exist, the turn raises the reader's
    [FileNotFoundError] after the progress line, with no warning, and a
    run that has the dataset in its list raises and writes no file. *)
Theorem missing_file_recovery fs prefix :
  (heavy_chains_of fs prefix = None \/ light_chains_of fs prefix = None ->
   (forall w,
       loop_body fs prefix w
       = Returns tt
           (mkWorld (all_data w)
              (stdout w ++ processing_line prefix :: missing_lines fs prefix)
              (written w)))
   /\ missing_lines fs prefix <> []
   /\ (forall before after w,
         outcome_data (for_each (before ++ prefix :: after) (loop_body fs) w)
         = outcome_data (for_each (before ++ after) (loop_body fs) w)))
  /\ (forall hs ls,
        heavy_chains_of fs prefix = Some hs ->
        light_chains_of fs prefix = Some ls ->
        fs (reactivity_path prefix) = None ->
        (forall w,
            loop_body fs prefix w
            = Raises (FileNotFoundError (reactivity_path prefix))
                (mkWorld (all_data w) (stdout w ++ [processing_line prefix])
                   (written w)))
        /\ (In prefix prefixes ->
            forall w, exists e w',
              main fs w = Raises e w' /\ written w' = written w)).
Proof.
  split.
  - intros Hmiss.
    assert (E : dataset_effect fs prefix
                = mkEffect [] (processing_line prefix :: missing_lines fs prefix)
                    None).
    { unfold dataset_effect.
      destruct (heavy_chains_of fs prefix) as [hs|]; [|reflexivity].
      destruct (light_chains_of fs prefix) as [ls|]; [|reflexivity].
      destruct Hmiss; discriminate. }
    repeat split.
    + intros w. rewrite loop_body_effect, E. unfold run_effect; simpl.
      now rewrite app_nil_r.
    + unfold heavy_chains_of, light_chains_of, missing_lines in *.
      destruct (fs (heavy_chain_path prefix)); [|discriminate].
      destruct (fs (light_chain_path prefix)); [|discriminate].
      destruct Hmiss; discriminate.
    + intros before after w. rewrite !for_each_effect.
      destruct (effects_of_without fs prefix before after) as [A R];
        [now rewrite E | now rewrite E |].
      unfold run_effect. rewrite A, R.
      destruct (raised (effects_of fs (before ++ after))); reflexivity.
  - intros hs ls Hh Hl Hr.
    assert (E : dataset_effect fs prefix
                = mkEffect [] [processing_line prefix]
                    (Some (FileNotFoundError (reactivity_path prefix)))).
    { unfold dataset_effect, reactivity_of. now rewrite Hh, Hl, Hr. }
    split.
    + intros w. rewrite loop_body_effect, E. unfold run_effect; simpl.
      now rewrite app_nil_r.
    + intros Hin w.
      destruct (effects_of_raises fs prefixes prefix _ Hin
                  (f_equal raised E)) as [e' He'].
      rewrite main_effect. cbv zeta. rewrite He'.
      eexists _, _. split; reflexivity.
Qed.

Lemma missing_file_recovery_witness :
  loop_body fs_no_heavy "flu" start
  = Returns tt
      (mkWorld []
         ["Processing flu data...";
          "Warning: File not found at ./flu_fastaH.txt. Skipping."]
         [])
  /\ loop_body fs_no_reactivity "flu" start
     = Raises (FileNotFoundError "./flu_NumReact.txt")
         (mkWorld [] ["Processing flu data..."] []).
Proof.
  split.
  - destruct (proj1 (missing_file_recovery fs_no_heavy "flu")
                (or_introl eq_refl)) as [H _].
    exact (H start).
  - destruct (proj2 (missing_file_recovery fs_no_reactivity "flu")
                ["ACGT"] ["GGCC"] eq_refl eq_refl eq_refl) as [H _].
    exact (H start).
Defined.

(** C1 as stated fails.  In a directory that holds the heavy-chain and
    light-chain files of [flu] but no [flu_NumReact.txt], the run ends with
    an uncaught [FileNotFoundError] raised by the reactivity reader: the
    dataset is not skipped, no warning is printed and no file is written. *)
Theorem missing_reactivity_file_raises :
  main fs_no_reactivity start
  = Raises (FileNotFoundError "./flu_NumReact.txt")
      (mkWorld [] ["Processing flu data..."] []).
Proof. vm_compute. reflexivity. Qed.

(** C2: when the files of all six datasets exist and the three counts of
    each dataset [p] agree on [N p], the run returns; its record list is
    the concatenation, in the order of [prefixes], of the records of each
    dataset, [N p] of them for dataset [p], so the sum in all; every
    record has exactly the keys type, NumReact, DNA_fastaH_raw and
    DNA_fastaL_raw, in that order, and its type is the label of its
    dataset; the output file holds the dump of that list. *)
Theorem six_datasets_concatenated fs (N : string -> nat) :
  (forall p, In p prefixes -> counts_of fs p = Some (N p, N p, N p)) ->
  exists w',
    main fs start = Returns tt w'
    /\ all_data w' = flat_map (dataset_records fs) prefixes
    /\ length (all_data w')
       = N "flu" + N "gut_hiv" + N "nat_cntrl" + N "nat_hiv" + N "plos_hiv"
         + N "mouse"
    /\ (forall p, In p prefixes -> length (dataset_records fs p) = N p)
    /\ (forall p,
          Forall (fun d =>
                    keys d = ["type"; "NumReact"; "DNA_fastaH_raw";
                              "DNA_fastaL_raw"]
                    /\ get "type" d = Some (VStr p))
            (dataset_records fs p))
    /\ written w' = [(output_filename, dumps 2 (all_data w'))].
Proof.
  intros H. destruct (effects_of_kept fs N prefixes H) as [E L].
  rewrite main_effect, E. cbv zeta. cbn [raised added printed].
  eexists; split; [reflexivity|]. cbn [all_data written start app].
  repeat split.
  - rewrite L. simpl. lia.
  - intros p Hp. now apply (dataset_effect_kept fs p (N p)), H.
  - intros p. unfold dataset_records.
    destruct (heavy_chains_of fs p) as [hs|]; [|constructor].
    destruct (light_chains_of fs p) as [ls|]; [|constructor].
    destruct (reactivity_of fs p) as [e|rs]; [constructor|].
    apply Forall_forall. intros d Hd.
    apply in_map_iff in Hd as [[[h l] r] [<- _]]. split; reflexivity.
Qed.

Lemma six_datasets_concatenated_witness :
  exists w',
    main fs_six start = Returns tt w'
    /\ all_data w' = flat_map (dataset_records fs_six) prefixes
    /\ length (all_data w') = 2 + 1 + 1 + 1 + 1 + 1
    /\ (forall p, In p prefixes ->
          length (dataset_records fs_six p)
          = if String.eqb p "flu" then 2 else 1)
    /\ (forall p,
          Forall (fun d =>
                    keys d = ["type"; "NumReact"; "DNA_fastaH_raw";
                              "DNA_fastaL_raw"]
                    /\ get "type" d = Some (VStr p))
            (dataset_records fs_six p))
    /\ written w' = [(output_filename, dumps 2 (all_data w'))].
Proof.
  apply (six_datasets_concatenated fs_six
           (fun p => if String.eqb p "flu" then 2 else 1)).
  intros p Hp. simpl in Hp.
  repeat (destruct Hp as [<-|Hp]; [vm_compute; reflexivity|]).
  contradiction.
Defined.

(** C4: a dataset whose files were read and whose three counts are not all
    equal adds no record: its turn of the loop leaves the record list and
    the written files as they were and prints, after the progress line, a
    warning and a line stating the three counts; and the records of the
    run are those of the run without that dataset. *)
Theorem count_mismatch_skips_dataset fs prefix hs ls rs :
  heavy_chains_of fs prefix = Some hs ->
  light_chains_of fs prefix = Some ls ->
  reactivity_of fs prefix = inr rs ->
  length hs <> length ls \/ length hs <> length rs ->
  (forall w,
      loop_body fs prefix w
      = Returns tt
          (mkWorld (all_data w)
             (stdout w ++ [processing_line prefix; mismatch_line prefix;
                           counts_line (length hs) (length ls) (length rs)])
             (written w)))
  /\ (forall before after w,
        outcome_data (for_each (before ++ prefix :: after) (loop_body fs) w)
        = outcome_data (for_each (before ++ after) (loop_body fs) w)).
Proof.
  intros Hh Hl Hr Hne.
  assert (E : dataset_effect fs prefix
              = mkEffect []
                  [processing_line prefix; mismatch_line prefix;
                   counts_line (length hs) (length ls) (length rs)] None).
  { unfold dataset_effect. rewrite Hh, Hl, Hr.
    destruct (Nat.eqb_spec (length hs) (length ls));
      destruct (Nat.eqb_spec (length hs) (length rs)); simpl;
      try reflexivity.
    destruct Hne; contradiction. }
  split.
  - intros w. rewrite loop_body_effect, E. unfold run_effect; simpl.
    now rewrite app_nil_r.
  - intros before after w. rewrite !for_each_effect.
    destruct (effects_of_without fs prefix before after) as [A R];
      [now rewrite E | now rewrite E |].
    unfold run_effect. rewrite A, R.
    destruct (raised (effects_of fs (before ++ after))); reflexivity.
Qed.

Lemma count_mismatch_skips_dataset_witness :
  loop_body fs_mismatch "gut_hiv" start
  = Returns tt
      (mkWorld []
         ["Processing gut_hiv data...";
          "Warning: Mismatch in record counts for prefix 'gut_hiv'. Skipping.";
          "  Heavy chains: 2, Light chains: 2, Reactivity values: 1"]
         []).
Proof.
  refine (proj1 (count_mismatch_skips_dataset fs_mismatch "gut_hiv"
                   ["AC"; "GT"] ["AC"; "GT"] [1%Z] _ _ _ _) start).
  - reflexivity.
  - reflexivity.
  - reflexivity.
  - right. simpl. discriminate.
Defined.

(** C8 (as amended): in a run that returns, the NumReact of every record
    is an integer; in a dataset read by the binary reader it is 0 or 4; in
    a dataset read by the numeric reader it is the integer that some line
    of the reactivity file denotes, whatever its sign. *)
Theorem reactivity_values_of_records fs w' :
  main fs start = Returns tt w' ->
  Forall (fun d =>
            exists p z,
              In p prefixes
              /\ get "type" d = Some (VStr p)
              /\ get "NumReact" d = Some (VInt z)
              /\ if is_binary p then z = 0%Z \/ z = 4%Z
                 else exists text line,
                     fs (reactivity_path p) = Some text
                     /\ In line (data_lines text)
                     /\ py_int (strip line) = Some z)
    (all_data w').
Proof.
  rewrite main_effect. cbv zeta.
  remember (effects_of fs prefixes) as e eqn:He.
  destruct (raised e); [discriminate|].
  intros [= <-]. cbn [all_data]. apply Forall_forall. intros d Hd.
  rewrite He in Hd. apply added_effects_of_In in Hd as [p [Hp Hd]].
  apply added_dataset_effect_In in Hd as (h & l & r & rs & -> & Hr & Hin).
  exists p, r. repeat split; [exact Hp|].
  unfold reactivity_of in Hr.
  destruct (fs (reactivity_path p)) as [text|]; [|discriminate].
  destruct (is_binary p).
  - injection Hr as <-. now apply binary_values_In in Hin.
  - unfold numeric_values in Hr.
    destruct (parse_ints_In _ _ _ Hr Hin) as [line [Hl Hz]].
    apply filter_In in Hl as [Hl _].
    exists text, line. auto.
Qed.

Lemma reactivity_values_of_records_witness :
  exists w',
    main fs_negative start = Returns tt w'
    /\ Forall (fun d =>
                 exists p z,
                   In p prefixes
                   /\ get "type" d = Some (VStr p)
                   /\ get "NumReact" d = Some (VInt z)
                   /\ if is_binary p then z = 0%Z \/ z = 4%Z
                      else exists text line,
                          fs_negative (reactivity_path p) = Some text
                          /\ In line (data_lines text)
                          /\ py_int (strip line) = Some z)
         (all_data w').
Proof.
  eexists. split.
  - vm_compute. reflexivity.
  - apply (reactivity_values_of_records fs_negative). vm_compute. reflexivity.
Defined.

(** C8 as stated fails: with the line -1 in [flu_NumReact.txt] the run
    returns and its one record has the negative NumReact -1. *)
Lemma negative_reactivity_kept :
  exists w',
    main fs_negative start = Returns tt w'
    /\ all_data w' = [make_record "flu" ("ACGT", "GGCC", (-1)%Z)]
    /\ exists d z,
        In d (all_data w') /\ get "NumReact" d = Some (VInt z) /\ (z < 0)%Z.
Proof.
  eexists. split; [vm_compute; reflexivity|].
  split; [reflexivity|].
  exists (make_record "flu" ("ACGT", "GGCC", (-1)%Z)), (-1)%Z.
  repeat split. now left.
Qed.

(** C10: a run that returns has written the output file once, holding
    the dump of the record list, and has ended its output with the success
    line and the total; and when every dataset is skipped the run does
    return, the file holds the empty array and the total is zero. *)
Theorem output_written_once fs :
  (forall w',
      main fs start = Returns tt w' ->
      written w' = [(output_filename, dumps 2 (all_data w'))]
      /\ exists out,
          stdout w'
          = out ++ [success_line; total_line (length (all_data w'))])
  /\ ((forall p, In p prefixes -> is_skipped fs p = true) ->
      exists out,
        main fs start
        = Returns tt
            (mkWorld [] (out ++ [success_line; "Total records processed: 0"])
               [(output_filename, "[]")])).
Proof.
  split.
  - intros w'. rewrite main_effect. cbv zeta.
    destruct (raised (effects_of fs prefixes)); [discriminate|].
    intros [= <-]. cbn [all_data written stdout start app]. split.
    + reflexivity.
    + exists (printed (effects_of fs prefixes)). reflexivity.
  - intros H. destruct (effects_of_skipped fs prefixes H) as [A R].
    rewrite main_effect. cbv zeta. rewrite R, A.
    exists (printed (effects_of fs prefixes)). reflexivity.
Qed.

Lemma output_written_once_witness :
  exists out,
    main fs_empty start
    = Returns tt
        (mkWorld [] (out ++ [success_line; "Total records processed: 0"])
           [(output_filename, "[]")]).
Proof.
  apply (proj2 (output_written_once fs_empty)).
  intros p Hp. simpl in Hp.
  repeat (destruct Hp as [<-|Hp]; [reflexivity|]).
  contradiction.
Defined.

(** ** Further properties of the sequence parser *)

Lemma remove_whitespace_append (a b : string) :
  remove_whitespace (a ++ b)
  = (remove_whitespace a ++ remove_whitespace b)%string.
Proof.
  induction a as [|c a IH]; simpl; [reflexivity|].
  destruct (isspace c); simpl; now rewrite IH.
Qed.

Lemma remove_whitespace_none (s : string) :
  has_whitespace s = false -> remove_whitespace s = s.
Proof.
  induction s as [|c s IH]; simpl; [reflexivity|].
  destruct (isspace c); [discriminate|]. simpl. intros H; now rewrite IH.
Qed.

Lemma remove_whitespace_all (s : string) :
  all_chars isspace s = true -> remove_whitespace s = "".
Proof.
  induction s as [|c s IH]; simpl; [reflexivity|].
  destruct (isspace c); [exact IH | discriminate].
Qed.

Lemma str_index_append_none (d : ascii) (a b : string) :
  str_index d a = None -> str_index d b = None ->
  str_index d (a ++ b) = None.
Proof.
  intros Ha Hb. induction a as [|c a IH]; simpl in *; [exact Hb|].
  destruct (Ascii.eqb c d); [discriminate|].
  destruct (str_index d a); [discriminate|]. now rewrite IH.
Qed.

Lemma str_index_cons_none (d c : ascii) (s : string) :
  str_index d (String c s) = None <->
  Ascii.eqb c d = false /\ str_index d s = None.
Proof.
  simpl. destruct (Ascii.eqb c d); [split; [discriminate | intros [? _]; discriminate]|].
  destruct (str_index d s); split; try discriminate; auto.
  intros [_ ?]; discriminate.
Qed.

Lemma drop_header_line_append (h rest : string) :
  str_index LF h = None -> drop_header_line (h ++ String LF rest) = rest.
Proof.
  induction h as [|c h IH]; simpl; [reflexivity|].
  destruct (Ascii.eqb c LF); [discriminate|].
  destruct (str_index LF h); [discriminate|]. auto.
Qed.

Lemma drop_header_line_no_break (h : string) :
  str_index LF h = None -> drop_header_line h = "".
Proof.
  induction h as [|c h IH]; simpl; [reflexivity|].
  destruct (Ascii.eqb c LF); [discriminate|].
  destruct (str_index LF h); [discriminate|]. auto.
Qed.

Lemma file_cons (l : string) (ls : list string) :
  file (l :: ls) = (l ++ nl ++ file ls)%string.
Proof.
  unfold file. cbn [map]. now rewrite concat_empty_cons, append_assoc.
Qed.

Lemma remove_whitespace_file (lines : list string) :
  Forall (fun l => has_whitespace l = false /\ no_delim l) lines ->
  remove_whitespace (file lines) = String.concat "" lines.
Proof.
  induction 1 as [|l ls [Hl _] _ IH]; [reflexivity|].
  rewrite file_cons, concat_empty_cons, !remove_whitespace_append.
  rewrite (remove_whitespace_none _ Hl), IH. reflexivity.
Qed.

Lemma no_delim_file (lines : list string) :
  Forall (fun l => has_whitespace l = false /\ no_delim l) lines ->
  no_delim (file lines).
Proof.
  induction 1 as [|l ls [_ Hl] _ IH]; [reflexivity|].
  rewrite file_cons. unfold no_delim in *.
  apply str_index_append_none; [exact Hl|].
  apply str_index_append_none; [reflexivity | exact IH].
Qed.

Lemma cleaned_render_record (up : bool) (r : string * list string) :
  plain_record r ->
  no_delim (render_record r)
  /\ cleaned up (render_record r) = case_of up (String.concat "" (snd r)).
Proof.
  intros (Hlf & Hd & Hl). unfold render_record, cleaned, case_of. split.
  - unfold no_delim in *. apply str_index_append_none; [exact Hd|].
    apply str_index_append_none; [reflexivity | now apply no_delim_file].
  - change (nl ++ file (snd r))%string with (String LF (file (snd r))).
    rewrite (drop_header_line_append _ _ Hlf), (remove_whitespace_file _ Hl).
    reflexivity.
Qed.

(** X1: writing records out as FASTA (delimiter, header line, sequence
    broken over any number of lines) and parsing the text gives back the
    sequences, each the concatenation of its lines, in order, uppercased
    on demand; records with an empty sequence are missing. *)
Theorem parse_render_fasta (up : bool) (recs : list (string * list string)) :
  Forall plain_record recs ->
  parse_fasta_text up (render_fasta recs)
  = filter truthy (map (fun r => case_of up (String.concat "" (snd r))) recs).
Proof.
  intros H. unfold render_fasta.
  rewrite parse_fasta_text_records.
  - unfold cleaned_sequences. rewrite map_map. f_equal.
    apply map_ext_in. intros r Hr.
    apply (cleaned_render_record up r). eapply Forall_forall; eauto.
  - apply Forall_forall. intros b Hb.
    apply in_map_iff in Hb as [r [<- Hr]].
    apply (cleaned_render_record up r). eapply Forall_forall; eauto.
Qed.

Lemma parse_render_fasta_witness :
  parse_fasta_text true
    (render_fasta [("id1 mouse", ["acgt"; "ac"]); ("id2", []); ("id3", ["tt"])])
  = ["ACGTAC"; "TT"].
Proof.
  apply (parse_render_fasta true
           [("id1 mouse", ["acgt"; "ac"]); ("id2", []); ("id3", ["tt"])]).
  repeat constructor.
Defined.

Lemma blank_after_header (h ws : string) :
  str_index LF h = None -> all_chars isspace ws = true ->
  remove_whitespace (drop_header_line (h ++ ws)) = "".
Proof.
  intros Hlf Hws. induction h as [|c h IH]; simpl in *.
  - apply blank_drop_header_line. now apply remove_whitespace_all.
  - destruct (Ascii.eqb c LF); [discriminate|].
    destruct (str_index LF h); [discriminate|]. auto.
Qed.

(** X2: a record that is only a header line, followed by nothing but
    whitespace, adds nothing: the parser returns what it returns for the
    text without that record, wherever the record stands. *)
Theorem header_only_record_dropped (up : bool) (before after : list string)
    (header ws : string) :
  Forall no_delim before -> Forall no_delim after ->
  no_delim header -> str_index LF header = None ->
  all_chars isspace ws = true ->
  parse_fasta_text up (fasta_text (before ++ (header ++ ws)%string :: after))
  = parse_fasta_text up (fasta_text (before ++ after)).
Proof.
  intros Hb Ha Hd Hlf Hws.
  assert (Hdw : no_delim (header ++ ws)).
  { unfold no_delim in *. apply str_index_append_none; [exact Hd|].
    clear -Hws. induction ws as [|c ws IH]; [reflexivity|].
    simpl in Hws. apply andb_prop in Hws as [Hc Hws].
    apply str_index_cons_none. split; [|auto].
    destruct (Ascii.eqb_spec c ">") as [->|]; [discriminate | reflexivity]. }
  rewrite !parse_fasta_text_records.
  - unfold cleaned_sequences. rewrite !map_app, !filter_app. cbn [map filter].
    unfold cleaned at 2. rewrite (blank_after_header _ _ Hlf Hws).
    destruct up; reflexivity.
  - apply Forall_app; auto.
  - apply Forall_app; auto.
Qed.

Lemma header_only_record_dropped_witness :
  parse_fasta_text false
    (fasta_text [("a" ++ nl ++ "AC" ++ nl)%string; ("lonely header" ++ nl)%string;
                 ("b" ++ nl ++ "GT" ++ nl)%string])
  = parse_fasta_text false
      (fasta_text [("a" ++ nl ++ "AC" ++ nl)%string;
                   ("b" ++ nl ++ "GT" ++ nl)%string]).
Proof.
  apply (header_only_record_dropped false [("a" ++ nl ++ "AC" ++ nl)%string]
           [("b" ++ nl ++ "GT" ++ nl)%string] "lonely header" nl).
  - repeat constructor.
  - repeat constructor.
  - reflexivity.
  - reflexivity.
  - reflexivity.
Defined.

Lemma split_on_fragments (d : ascii) (s : string) :
  Forall (fun f => str_index d f = None) (split_on d s).
Proof.
  induction s as [|c s IH]; simpl; [repeat constructor|].
  destruct (Ascii.eqb c d) eqn:E; [constructor; [reflexivity | exact IH]|].
  destruct (split_on d s) as [|h t]; [repeat constructor; simpl; now rewrite E|].
  inversion IH as [|? ? Hh Ht]; subst. constructor; [|exact Ht].
  apply str_index_cons_none; auto.
Qed.

Lemma no_delim_drop_header_line (s : string) :
  no_delim s -> no_delim (drop_header_line s).
Proof.
  unfold no_delim. induction s as [|c s IH]; simpl; [reflexivity|].
  destruct (Ascii.eqb c ">"); [discriminate|].
  destruct (str_index ">" s) eqn:Hs; [discriminate|].
  intros _. destruct (Ascii.eqb c LF); auto.
Qed.

Lemma no_delim_remove_whitespace (s : string) :
  no_delim s -> no_delim (remove_whitespace s).
Proof.
  unfold no_delim. induction s as [|c s IH]; simpl; [reflexivity|].
  destruct (Ascii.eqb c ">") eqn:E; [discriminate|].
  destruct (str_index ">" s) eqn:Hs; [discriminate|].
  intros _. destruct (isspace c); [auto|]. simpl. now rewrite E, IH.
Qed.

Lemma upper_char_delim (c : ascii) :
  Ascii.eqb (upper_char c) ">" = Ascii.eqb c ">".
Proof.
  destruct c as [[] [] [] [] [] [] [] []]; vm_compute; reflexivity.
Qed.

Lemma no_delim_upper (s : string) : no_delim s -> no_delim (upper s).
Proof.
  unfold no_delim, upper. induction s as [|c s IH]; simpl; [reflexivity|].
  rewrite upper_char_delim. destruct (Ascii.eqb c ">"); [discriminate|].
  destruct (str_index ">" s) eqn:Hs; [discriminate|]. intros _. now rewrite IH.
Qed.

Lemma parse_fasta_text_clean (up : bool) (text : string) :
  Forall (fun s => s <> "" /\ has_whitespace s = false /\ no_delim s)
    (parse_fasta_text up text).
Proof.
  rewrite parse_fasta_text_cleaned. unfold cleaned_sequences.
  apply Forall_forall. intros s Hs.
  apply filter_In in Hs as [Hin Ht]. apply in_map_iff in Hin as [b [<- Hb]].
  split; [intros E; rewrite E in Ht; discriminate|].
  split; [apply cleaned_no_whitespace|].
  assert (Hd : no_delim b).
  { pose proof (split_on_fragments ">" (strip text)) as F.
    rewrite Forall_forall in F. now apply F. }
  unfold cleaned. apply no_delim_drop_header_line in Hd.
  apply no_delim_remove_whitespace in Hd.
  destruct up; [now apply no_delim_upper | exact Hd].
Qed.

(** X3: whatever the text of the file, every sequence the parser returns
    is non-empty and holds neither whitespace nor the record delimiter. *)
Theorem parsed_sequences_clean (up : bool) (text : string) :
  Forall (fun s => s <> "" /\ has_whitespace s = false /\ no_delim s)
    (parse_fasta_text up text).
Proof. exact (parse_fasta_text_clean up text). Qed.

(** X4: the uppercasing flag changes nothing but the case: the result
    with the flag is the result without it, each string uppercased, so
    the two have the same length. *)
Theorem uppercase_flag_maps_upper (text : string) :
  parse_fasta_text true text = map upper (parse_fasta_text false text).
Proof.
  rewrite !parse_fasta_text_cleaned. unfold cleaned_sequences.
  induction (split_on ">" (strip text)) as [|b bs IH]; [reflexivity|].
  cbn [map filter].
  change (cleaned true b) with (upper (cleaned false b)).
  rewrite truthy_upper.
  destruct (truthy (cleaned false b)); cbn [map]; now rewrite IH.
Qed.

Lemma lstrip_append_space (ws s : string) :
  all_chars isspace ws = true -> lstrip (ws ++ s) = lstrip s.
Proof.
  induction ws as [|c ws IH]; simpl; [reflexivity|].
  destruct (isspace c); [exact IH | discriminate].
Qed.

Lemma rstrip_all_space (ws : string) :
  all_chars isspace ws = true -> rstrip ws = "".
Proof.
  intros H. apply truthy_false. rewrite truthy_rstrip.
  now rewrite (remove_whitespace_all _ H).
Qed.

Lemma rstrip_append_space (s ws : string) :
  all_chars isspace ws = true -> rstrip (s ++ ws) = rstrip s.
Proof.
  intros H. induction s as [|c s IH]; simpl.
  - now apply rstrip_all_space.
  - now rewrite IH.
Qed.

Lemma strip_padded (ws1 s ws2 : string) :
  all_chars isspace ws1 = true -> all_chars isspace ws2 = true ->
  strip (ws1 ++ s ++ ws2) = strip s.
Proof.
  intros H1 H2. unfold strip.
  rewrite <- append_assoc, (rstrip_append_space _ _ H2).
  destruct (truthy (rstrip s)) eqn:Ht.
  - rewrite (rstrip_append _ _ Ht). now apply lstrip_append_space.
  - apply truthy_false in Ht. rewrite Ht.
    assert (E : rstrip (ws1 ++ s) = "").
    { apply truthy_false. rewrite truthy_rstrip, remove_whitespace_append.
      rewrite (remove_whitespace_all _ H1). simpl.
      rewrite <- truthy_rstrip, Ht. reflexivity. }
    now rewrite E.
Qed.

(** X5: whitespace (blank lines, spaces) before the content of the file
    and after it makes no difference to what the parser returns. *)
Theorem surrounding_whitespace_ignored (up : bool) (ws1 text ws2 : string) :
  all_chars isspace ws1 = true -> all_chars isspace ws2 = true ->
  parse_fasta_text up (ws1 ++ text ++ ws2) = parse_fasta_text up text.
Proof.
  intros H1 H2. unfold parse_fasta_text. now rewrite strip_padded.
Qed.

Lemma surrounding_whitespace_ignored_witness :
  parse_fasta_text false
    ((nl ++ "  ") ++ (">h" ++ nl ++ "AC GT") ++ (nl ++ nl))%string
  = parse_fasta_text false (">h" ++ nl ++ "AC GT")%string.
Proof.
  apply (surrounding_whitespace_ignored false (nl ++ "  ")%string
           (">h" ++ nl ++ "AC GT")%string (nl ++ nl)%string).
  - reflexivity.
  - reflexivity.
Defined.

(** ** Further properties of the reactivity readers *)

Lemma parse_ints_lines (lines : list string) (zs : list Z) :
  parse_ints lines = inr zs ->
  Forall2 (fun l z => py_int (strip l) = Some z) lines zs.
Proof.
  revert zs; induction lines as [|l ls IH]; intros zs; simpl.
  - intros [= <-]. constructor.
  - destruct (py_int (strip l)) as [z|] eqn:Hz; [|discriminate].
    destruct (parse_ints ls) as [e|vs]; [discriminate|].
    intros [= <-]. constructor; auto.
Qed.


(** X7: when the numeric reader returns, it has changed nothing and
    printed nothing, and its values pair off, in order, with the non-blank
    data lines of the file: one value per such line, the integer that the
    trimmed line denotes. *)
Theorem numeric_reader_returns fs path w zs w' :
  process_react_numeric fs path w = Returns zs w' ->
  w' = w
  /\ exists text,
      fs path = Some text
      /\ Forall2 (fun l z => py_int (strip l) = Some z)
           (filter (fun l => negb (blank l)) (data_lines text)) zs
      /\ length zs
         = length (filter (fun l => negb (blank l)) (data_lines text)).
Proof.
  destruct (fs path) as [text|] eqn:Hf.
  - rewrite (process_react_numeric_existing _ _ _ _ Hf).
    destruct (numeric_values text) as [e|vs] eqn:Hv; [discriminate|].
    intros [= <- <-]. split; [reflexivity|]. exists text.
    apply parse_ints_lines in Hv. repeat split; [exact Hv|].
    symmetry. eapply Forall2_length; eauto.
  - rewrite (process_react_numeric_missing _ _ _ Hf). discriminate.
Qed.

Lemma numeric_reader_returns_witness :
  start = start
  /\ exists text,
      fs_six "./flu_NumReact.txt" = Some text
      /\ Forall2 (fun l z => py_int (strip l) = Some z)
           (filter (fun l => negb (blank l)) (data_lines text)) [3%Z; 0%Z]
      /\ length [3%Z; 0%Z]
         = length (filter (fun l => negb (blank l)) (data_lines text)).
Proof.
  apply (numeric_reader_returns fs_six "./flu_NumReact.txt" start
           [3%Z; 0%Z] start).
  reflexivity.
Defined.

Lemma flat_map_yn_entry_length (lines : list string) :
  length (flat_map yn_entry lines) <= length lines.
Proof.
  induction lines as [|l ls IH]; simpl; [lia|].
  rewrite length_app. unfold yn_entry at 1.
  destruct (_ || _); [simpl; lia|]. destruct (_ || _); simpl; lia.
Qed.

(** X9: when the binary reader returns, it has changed nothing and
    printed nothing, the file exists, and what it returns are zeros and
    fours, at most one per line of the file. *)
Theorem binary_reader_returns fs path w zs w' :
  process_react_binary fs path w = Returns zs w' ->
  w' = w
  /\ Forall (fun z => z = 0%Z \/ z = 4%Z) zs
  /\ exists text,
      fs path = Some text /\ length zs <= length (readlines text).
Proof.
  destruct (fs path) as [text|] eqn:Hf.
  - rewrite (process_react_binary_existing _ _ _ _ Hf).
    intros [= <- <-]. repeat split.
    + apply Forall_forall. intros z. apply binary_values_In.
    + exists text. split; [reflexivity | apply flat_map_yn_entry_length].
  - rewrite (process_react_binary_missing _ _ _ Hf). discriminate.
Qed.

Lemma binary_reader_returns_witness :
  start = start
  /\ Forall (fun z => z = 0%Z \/ z = 4%Z) [0%Z]
  /\ exists text,
      fs_six "./plos_hiv_YN.txt" = Some text
      /\ length [0%Z] <= length (readlines text).
Proof.
  apply (binary_reader_returns fs_six "./plos_hiv_YN.txt" start [0%Z] start).
  reflexivity.
Defined.

(** *** The header test and integer lines *)

Lemma all_chars_weaken (P Q : ascii -> bool) (s : string) :
  (forall c, P c = true -> Q c = true) ->
  all_chars P s = true -> all_chars Q s = true.
Proof.
  intros HPQ. induction s as [|c s IH]; simpl; [reflexivity|].
  intros H. apply andb_prop in H as [Hc Hs].
  now rewrite (HPQ _ Hc), IH.
Qed.

Lemma all_chars_lstrip (P : ascii -> bool) (s : string) :
  all_chars P (lstrip s) = true ->
  all_chars (fun c => isspace c || P c) s = true.
Proof.
  induction s as [|c s IH]; simpl; [reflexivity|].
  destruct (isspace c) eqn:Hc; simpl.
  - exact IH.
  - intros H. apply andb_prop in H as [H1 H2].
    rewrite H1; simpl.
    eapply all_chars_weaken; [|exact H2]. intros x Hx; now rewrite Hx, orb_true_r.
Qed.

Lemma all_chars_rstrip (P : ascii -> bool) (s : string) :
  all_chars P (rstrip s) = true ->
  all_chars (fun c => isspace c || P c) s = true.
Proof.
  induction s as [|c s IH]; simpl; [reflexivity|].
  destruct (isspace c) eqn:Hc; simpl.
  - destruct (truthy (rstrip s)) eqn:Ht; simpl.
    + intros H. apply andb_prop in H as [_ H]. auto.
    + intros _. apply IH. apply truthy_false in Ht. now rewrite Ht.
  - intros H. apply andb_prop in H as [H1 H2]. rewrite H1; simpl. auto.
Qed.

Lemma all_chars_strip (P : ascii -> bool) (s : string) :
  all_chars P (strip s) = true ->
  all_chars (fun c => isspace c || P c) s = true.
Proof.
  intros H. unfold strip in H.
  apply all_chars_lstrip, all_chars_rstrip in H.
  eapply all_chars_weaken; [|exact H]. cbv beta. intros c Hc.
  destruct (isspace c); [reflexivity | exact Hc].
Qed.

Lemma digits_from_chars (s : string) (acc : N) (prev : bool) (n : N) :
  digits_from acc prev s = Some n -> all_chars int_char s = true.
Proof.
  revert acc prev; induction s as [|c s IH]; intros acc prev; simpl;
    [reflexivity|].
  unfold int_char at 1.
  destruct (is_digit c); simpl; [apply IH|].
  destruct (Ascii.eqb c "_"); simpl; [|discriminate].
  destruct prev; [apply IH | discriminate].
Qed.

Lemma py_int_cons (c : ascii) (r : string) :
  py_int (String c r)
  = if Ascii.eqb c "+" then option_map Z.of_N (digits_from 0 false r)
    else if Ascii.eqb c "-"
         then option_map (fun n => (- Z.of_N n)%Z) (digits_from 0 false r)
         else option_map Z.of_N (digits_from 0 false (String c r)).
Proof.
  destruct c as [[] [] [] [] [] [] [] []]; reflexivity.
Qed.

Lemma py_int_chars (s : string) (z : Z) :
  py_int s = Some z -> all_chars int_char s = true.
Proof.
  destruct s as [|c r]; [discriminate|]. rewrite py_int_cons.
  destruct (Ascii.eqb c "+") eqn:Ep.
  - destruct (digits_from 0 false r) as [n|] eqn:Hn; [|discriminate].
    intros _. simpl. unfold int_char at 1. rewrite Ep, orb_true_r. simpl.
    eapply digits_from_chars; eauto.
  - destruct (Ascii.eqb c "-") eqn:Em.
    + destruct (digits_from 0 false r) as [n|] eqn:Hn; [|discriminate].
      intros _. simpl. unfold int_char at 1. rewrite Em, orb_true_r. simpl.
      eapply digits_from_chars; eauto.
    + destruct (digits_from 0 false (String c r)) as [n|] eqn:Hn;
        [|discriminate].
      intros _. eapply digits_from_chars; eauto.
Qed.

Lemma lower_char_not_r (c : ascii) :
  isspace c || int_char c = true -> Ascii.eqb (lower_char c) "r" = false.
Proof.
  destruct c as [[] [] [] [] [] [] [] []]; vm_compute; congruence.
Qed.

Lemma contains_needs_first (a : ascii) (sub s : string) :
  all_chars (fun c => negb (Ascii.eqb c a)) s = true ->
  contains (String a sub) s = false.
Proof.
  induction s as [|c s IH]; [reflexivity|].
  cbn [all_chars contains String.prefix]. intros H.
  apply andb_prop in H as [Hc Hs]. apply negb_true_iff in Hc.
  destruct (ascii_dec a c) as [->|_]; [now rewrite Ascii.eqb_refl in Hc|].
  simpl. auto.
Qed.

Lemma integer_line_no_header (line : string) (z : Z) :
  py_int (strip line) = Some z -> contains "reacts" (lower line) = false.
Proof.
  intros H. apply py_int_chars, all_chars_strip in H.
  apply contains_needs_first.
  induction line as [|c l IH]; [reflexivity|].
  cbn [all_chars] in H. apply andb_prop in H as [Hc Hl].
  unfold lower in *. cbn [map_str all_chars].
  now rewrite (lower_char_not_r _ Hc), IH.
Qed.

(** X10: the header test never costs a value: when the first line of the
    file is an integer line it is kept, and its value comes first in the
    result. *)
Theorem integer_first_line_kept fs path text first rest z w :
  fs path = Some text ->
  readlines text = first :: rest ->
  py_int (strip first) = Some z ->
  process_react_numeric fs path w
  = match parse_ints (filter (fun l => negb (blank l)) rest) with
    | inr zs => Returns (z :: zs) w
    | inl e => Raises e w
    end.
Proof.
  intros Hf Hr Hz.
  rewrite (process_react_numeric_existing _ _ _ _ Hf).
  unfold numeric_values, data_lines, has_header. rewrite Hr.
  rewrite (integer_line_no_header _ _ Hz). cbn [filter].
  assert (Hb : blank first = false).
  { unfold blank. destruct (strip first); [discriminate | reflexivity]. }
  rewrite Hb. cbn [negb parse_ints]. rewrite Hz.
  destruct (parse_ints _); reflexivity.
Qed.

Lemma integer_first_line_kept_witness :
  process_react_numeric fs_bad_number "./flu_NumReact.txt" start
  = match parse_ints (filter (fun l => negb (blank l)) [("n/a" ++ nl)%string]) with
    | inr zs => Returns (2%Z :: zs) start
    | inl e => Raises e start
    end.
Proof.
  apply (integer_first_line_kept fs_bad_number "./flu_NumReact.txt"
           (file ["2"; "n/a"]) ("2" ++ nl)%string [("n/a" ++ nl)%string]
           2%Z start).
  - reflexivity.
  - reflexivity.
  - reflexivity.
Defined.

(** ** Further properties of the driver *)

Lemma missing_sequence_file_skips_witness :
  loop_body fs_no_heavy "flu" start
  = Returns tt
      (mkWorld []
         ["Processing flu data...";
          "Warning: File not found at ./flu_fastaH.txt. Skipping."]
         []).
Proof.
  exact (missing_sequence_file_skips fs_no_heavy "flu" start
           (or_introl eq_refl)).
Defined.

Lemma nth_error_zip3 {A B C} (a : list A) (b : list B) (c : list C)
    (i : nat) x y z :
  nth_error a i = Some x -> nth_error b i = Some y -> nth_error c i = Some z ->
  nth_error (zip3 a b c) i = Some (x, y, z).
Proof.
  revert b c i; induction a as [|x' a IH]; intros [|y' b] [|z' c] [|i];
    simpl; try discriminate.
  - now intros [= ->] [= ->] [= ->].
  - apply IH.
Qed.

(** X11: a dataset whose files were read and whose three counts agree
    adds one record per position, after the progress line and nothing
    else: as many records as heavy chains, the record at position [i]
    being the dictionary with, in this order, type = the label of the
    dataset, NumReact = the score at [i], DNA_fastaH_raw = the heavy chain
    at [i] and DNA_fastaL_raw = the light chain at [i]. *)
Theorem kept_dataset_pairs_by_position fs prefix hs ls rs :
  heavy_chains_of fs prefix = Some hs ->
  light_chains_of fs prefix = Some ls ->
  reactivity_of fs prefix = inr rs ->
  length hs = length ls -> length hs = length rs ->
  exists records,
    (forall w,
        loop_body fs prefix w
        = Returns tt
            (mkWorld (all_data w ++ records)
               (stdout w ++ [processing_line prefix]) (written w)))
    /\ length records = length hs
    /\ (forall i h l r,
          nth_error hs i = Some h -> nth_error ls i = Some l ->
          nth_error rs i = Some r ->
          nth_error records i
          = Some [("type", VStr prefix); ("NumReact", VInt r);
                  ("DNA_fastaH_raw", VStr h); ("DNA_fastaL_raw", VStr l)]).
Proof.
  intros Hh Hl Hr Hhl Hhr.
  exists (map (make_record prefix) (zip3 hs ls rs)). repeat split.
  - intros w. rewrite loop_body_effect. unfold dataset_effect, run_effect.
    rewrite Hh, Hl, Hr, <- Hhl, <- Hhr, Nat.eqb_refl. reflexivity.
  - rewrite length_map. apply zip3_length; congruence.
  - intros i h l r H1 H2 H3.
    now rewrite nth_error_map, (nth_error_zip3 _ _ _ _ _ _ _ H1 H2 H3).
Qed.

Lemma kept_dataset_pairs_by_position_witness :
  exists records,
    (forall w,
        loop_body fs_six "flu" w
        = Returns tt
            (mkWorld (all_data w ++ records)
               (stdout w ++ ["Processing flu data..."]) (written w)))
    /\ length records = 2
    /\ (forall i h l r,
          nth_error ["ACGTACGT"; "tt"] i = Some h ->
          nth_error ["GGCC"; "CC"] i = Some l ->
          nth_error [3%Z; 0%Z] i = Some r ->
          nth_error records i
          = Some [("type", VStr "flu"); ("NumReact", VInt r);
                  ("DNA_fastaH_raw", VStr h); ("DNA_fastaL_raw", VStr l)]).
Proof.
  apply (kept_dataset_pairs_by_position fs_six "flu"
           ["ACGTACGT"; "tt"] ["GGCC"; "CC"] [3%Z; 0%Z]); reflexivity.
Defined.






(** X14: the turn of a dataset depends on its own three files only: two
    directories that agree on the heavy-chain, light-chain and reactivity
    paths of a prefix give the same turn, from any state. *)
Theorem dataset_reads_own_files fs fs' prefix :
  fs (heavy_chain_path prefix) = fs' (heavy_chain_path prefix) ->
  fs (light_chain_path prefix) = fs' (light_chain_path prefix) ->
  fs (reactivity_path prefix) = fs' (reactivity_path prefix) ->
  forall w, loop_body fs prefix w = loop_body fs' prefix w.
Proof.
  intros Hh Hl Hr w. rewrite !loop_body_effect. f_equal.
  unfold dataset_effect, heavy_chains_of, light_chains_of, reactivity_of,
    missing_lines.
  now rewrite Hh, Hl, Hr.
Qed.

Lemma dataset_reads_own_files_witness :
  loop_body fs_negative "flu" start = loop_body fs_flu_and_mouse "flu" start.
Proof.
  apply (dataset_reads_own_files fs_negative fs_flu_and_mouse "flu");
    reflexivity.
Defined.

Lemma dataset_effect_added fs prefix :
  raised (dataset_effect fs prefix) = None ->
  added (dataset_effect fs prefix) = kept_records fs prefix.
Proof.
  unfold dataset_effect, kept_records, counts_of, dataset_records.
  destruct (heavy_chains_of fs prefix) as [hs|]; [|reflexivity].
  destruct (light_chains_of fs prefix) as [ls|]; [|reflexivity].
  destruct (reactivity_of fs prefix) as [e|rs]; [discriminate|].
  destruct (length hs =? length ls)%nat, (length hs =? length rs)%nat;
    reflexivity.
Qed.

Lemma effects_of_added fs (ps : list string) :
  raised (effects_of fs ps) = None ->
  added (effects_of fs ps) = flat_map (kept_records fs) ps.
Proof.
  induction ps as [|p ps IH]; simpl; [reflexivity|].
  unfold then_effect. destruct (raised (dataset_effect fs p)) eqn:R.
  - rewrite R. discriminate.
  - simpl. intros H. now rewrite IH, dataset_effect_added.
Qed.

(** X15: whatever the directory, the records of a run that returns are
    the records of the datasets whose files were all read and whose three
    counts agree, concatenated in the order of the prefix list; a dataset
    with a missing sequence file or disagreeing counts gives none. *)
Theorem returned_records_are_kept fs w w' :
  main fs w = Returns tt w' ->
  all_data w' = flat_map (kept_records fs) prefixes.
Proof.
  rewrite main_effect. cbv zeta.
  remember (effects_of fs prefixes) as eff eqn:He.
  destruct (raised eff) eqn:R; [discriminate|].
  intros [= <-]. cbn [all_data]. rewrite He in *.
  now apply effects_of_added.
Qed.

Lemma returned_records_are_kept_witness :
  exists w',
    main fs_mismatch start = Returns tt w'
    /\ all_data w' = flat_map (kept_records fs_mismatch) prefixes.
Proof.
  eexists. split.
  - vm_compute. reflexivity.
  - apply (returned_records_are_kept fs_mismatch start). vm_compute.
    reflexivity.
Defined.

(** ** The sequences of the output *)

Lemma parse_fasta_text_upper (text : string) :
  Forall (fun s => upper s = s) (parse_fasta_text true text).
Proof.
  rewrite parse_fasta_text_cleaned. apply Forall_forall. intros s Hs.
  apply filter_In in Hs as [Hin _]. apply in_map_iff in Hin as [b [<- _]].
  apply upper_idempotent.
Qed.

Lemma added_dataset_effect_chains fs (prefix : string) (d : dict) :
  In d (added (dataset_effect fs prefix)) ->
  exists h l r th tl,
    d = make_record prefix (h, l, r)
    /\ fs (heavy_chain_path prefix) = Some th
    /\ In h (parse_fasta_text (String.eqb prefix "mouse") th)
    /\ fs (light_chain_path prefix) = Some tl
    /\ In l (parse_fasta_text (String.eqb prefix "mouse") tl).
Proof.
  unfold dataset_effect, heavy_chains_of, light_chains_of.
  destruct (fs (heavy_chain_path prefix)) as [th|]; [|contradiction].
  destruct (fs (light_chain_path prefix)) as [tl|]; [|contradiction].
  cbn [option_map].
  destruct (reactivity_of fs prefix) as [e|rs]; [contradiction|].
  destruct (negb _ || negb _); simpl; [contradiction|].
  intros H. apply in_map_iff in H as [[[h l] r] [<- Hin]].
  apply zip3_In in Hin as (Hh & Hl & _).
  exists h, l, r, th, tl. auto.
Qed.

(** X17: in the records of a run that returns, both sequences of every
    record are non-empty strings without whitespace and without the record
    delimiter, and those of the [mouse] dataset are in upper case. *)
Theorem output_sequences_clean fs w w' :
  main fs w = Returns tt w' ->
  Forall (fun d =>
            exists p h l,
              In p prefixes
              /\ get "type" d = Some (VStr p)
              /\ get "DNA_fastaH_raw" d = Some (VStr h)
              /\ get "DNA_fastaL_raw" d = Some (VStr l)
              /\ (h <> "" /\ has_whitespace h = false /\ no_delim h)
              /\ (l <> "" /\ has_whitespace l = false /\ no_delim l)
              /\ (p = "mouse" -> upper h = h /\ upper l = l))
    (all_data w').
Proof.
  rewrite main_effect. cbv zeta.
  remember (effects_of fs prefixes) as eff eqn:He.
  destruct (raised eff); [discriminate|].
  intros [= <-]. cbn [all_data]. apply Forall_forall. intros d Hd.
  rewrite He in Hd. apply added_effects_of_In in Hd as [p [Hp Hd]].
  apply added_dataset_effect_chains in Hd
    as (h & l & r & th & tl & -> & _ & Hh & _ & Hl).
  pose proof (parse_fasta_text_clean (String.eqb p "mouse") th) as Fh.
  pose proof (parse_fasta_text_clean (String.eqb p "mouse") tl) as Fl.
  rewrite Forall_forall in Fh, Fl.
  exists p, h, l. repeat split; auto; try (now apply Fh); try (now apply Fl).
  - subst p. pose proof (parse_fasta_text_upper th) as F.
    rewrite Forall_forall in F. now apply F.
  - subst p. pose proof (parse_fasta_text_upper tl) as F.
    rewrite Forall_forall in F. now apply F.
Qed.

Lemma output_sequences_clean_witness :
  exists w',
    main fs_six start = Returns tt w'
    /\ Forall (fun d =>
                 exists p h l,
                   In p prefixes
                   /\ get "type" d = Some (VStr p)
                   /\ get "DNA_fastaH_raw" d = Some (VStr h)
                   /\ get "DNA_fastaL_raw" d = Some (VStr l)
                   /\ (h <> "" /\ has_whitespace h = false /\ no_delim h)
                   /\ (l <> "" /\ has_whitespace l = false /\ no_delim l)
                   /\ (p = "mouse" -> upper h = h /\ upper l = l))
         (all_data w').
Proof.
  eexists. split.
  - vm_compute. reflexivity.
  - apply (output_sequences_clean fs_six start). vm_compute. reflexivity.
Defined.
